(** * uvcclient: the NVR remote-control client (nvr.py) and its CLI (main.py)

    A shallow embedding of [uvcclient/nvr.py] and of the alert branch of
    [uvcclient/main.py].  Python values are an inductive type, HTTP traffic
    and printing are events of a trace threaded through a state-and-exception
    monad, and the NVR is a transition function on an abstract server state.

    The source runs under Python 2 and Python 3 (see its "Python3
    compatibility" imports); where the two differ (the [/] operator, ordering
    of values of different types) the embedding takes the interpreter as a
    parameter. *)

From Stdlib Require Import ZArith QArith List String Ascii Bool Lia.
From Stdlib Require Import DecimalString.
Import ListNotations.

Local Open Scope string_scope.
Local Open Scope Z_scope.

Set Warnings "-register-all".

(** ** Python values *)

Inductive python := Py2 | Py3.

(** A float as [json.loads] can produce it: a finite value (a double is a
    dyadic rational, and Python compares floats and ints exactly), an
    infinity or NaN. *)
Inductive pyfloat :=
| FFinite (q : Q)
| FInf (negative : bool)
| FNaN.

(** The values [json.loads] returns: dictionaries keep insertion order and
    have string keys. *)
Inductive pyval :=
| PyNone
| PyBool (b : bool)
| PyInt (n : Z)
| PyFloat (f : pyfloat)
| PyStr (s : string)
| PyList (l : list pyval)
| PyDict (d : list (string * pyval)).

Inductive exn :=
| Invalid (msg : string)
| NotAuthorized (msg : string)
| NvrError (msg : string)
| CameraConnectionError (msg : string)
| OSError
| HTTPException (msg : string)
| KeyError
| IndexError
| TypeError
| ValueError
| AttributeError
| ZlibError.

Inductive result (A : Type) :=
| Ok (a : A)
| Raise (e : exn).
Arguments Ok {A} a.
Arguments Raise {A} e.

(** *** Dictionaries *)

Fixpoint dict_get {A} (k : string) (d : list (string * A)) : option A :=
  match d with
  | [] => None
  | (k', v) :: d' => if String.eqb k k' then Some v else dict_get k d'
  end.

(** [d[k] = v]: an existing key keeps its place, a new one goes last. *)
Fixpoint dict_set {A} (k : string) (v : A) (d : list (string * A)) : list (string * A) :=
  match d with
  | [] => [(k, v)]
  | (k', v') :: d' =>
      if String.eqb k k' then (k', v) :: d' else (k', v') :: dict_set k v d'
  end.

(** [dict(pairs)]: later pairs overwrite earlier ones. *)
Definition dict_of_pairs {A} (pairs : list (string * A)) : list (string * A) :=
  fold_left (fun d kv => dict_set (fst kv) (snd kv) d) pairs [].

(** *** Equality, truth and order *)

(** The numeric value behind [bool], [int] and [float]. *)
Definition py_num (v : pyval) : option pyfloat :=
  match v with
  | PyBool b => Some (FFinite (inject_Z (if b then 1 else 0)))
  | PyInt n => Some (FFinite (inject_Z n))
  | PyFloat f => Some f
  | _ => None
  end.

Definition float_eqb (x y : pyfloat) : bool :=
  match x, y with
  | FFinite p, FFinite q => Qeq_bool p q
  | FInf a, FInf b => Bool.eqb a b
  | _, _ => false
  end.

(** [x < y] on floats; every comparison with NaN is false. *)
Definition float_ltb (x y : pyfloat) : bool :=
  match x, y with
  | FFinite p, FFinite q => negb (Qle_bool q p)
  | FInf true, FFinite _ => true
  | FInf true, FInf false => true
  | FFinite _, FInf false => true
  | _, _ => false
  end.

(** Python's [==] on values parsed from JSON: numbers (booleans included)
    compare by value, lists elementwise, dictionaries as maps. *)
Fixpoint py_eq (a b : pyval) {struct a} : bool :=
  match a, b with
  | PyNone, PyNone => true
  | PyStr s, PyStr t => String.eqb s t
  | PyList xs, PyList ys =>
      (fix all2 (xs ys : list pyval) {struct xs} : bool :=
         match xs, ys with
         | [], [] => true
         | x :: xs', y :: ys' => py_eq x y && all2 xs' ys'
         | _, _ => false
         end) xs ys
  | PyDict d, PyDict e =>
      Nat.eqb (List.length d) (List.length e) &&
      (fix items (d : list (string * pyval)) : bool :=
         match d with
         | [] => true
         | (k, v) :: d' =>
             match dict_get k e with
             | Some w => py_eq v w
             | None => false
             end && items d'
         end) d
  | _, _ =>
      match py_num a, py_num b with
      | Some x, Some y => float_eqb x y
      | _, _ => false
      end
  end.

(** Truth value of a Python object, as [if x:] and [not x] take it. *)
Definition py_truthy (v : pyval) : bool :=
  match v with
  | PyNone => false
  | PyBool b => b
  | PyInt n => negb (n =? 0)
  | PyFloat f => negb (float_eqb f (FFinite 0%Q))
  | PyStr s => negb (String.eqb s "")
  | PyList l => match l with [] => false | _ => true end
  | PyDict d => match d with [] => false | _ => true end
  end.

(** [v > 0].  Python 3 orders numbers only and raises [TypeError] otherwise;
    Python 2 orders any two objects: [None] is below everything, numbers are
    below the other types. *)
Definition py_gt_zero (py : python) (v : pyval) : result bool :=
  match py_num v with
  | Some x => Ok (float_ltb (FFinite 0%Q) x)
  | None =>
      match py with
      | Py3 => Raise TypeError
      | Py2 => Ok (match v with PyNone => false | _ => true end)
      end
  end.

(** *** Subscripts *)

(** [v[key]] for a string key. *)
Definition getitem (v : pyval) (key : string) : result pyval :=
  match v with
  | PyDict d =>
      match dict_get key d with
      | Some x => Ok x
      | None => Raise KeyError
      end
  | _ => Raise TypeError
  end.

(** [v[0]]: the first element of a list, the first character of a string;
    a dictionary from JSON has no key [0]. *)
Definition getitem0 (v : pyval) : result pyval :=
  match v with
  | PyList (x :: _) => Ok x
  | PyList [] => Raise IndexError
  | PyStr (String c _) => Ok (PyStr (String c ""))
  | PyStr "" => Raise IndexError
  | PyDict _ => Raise KeyError
  | _ => Raise TypeError
  end.

(** [v[key] = x]. *)
Definition setitem (v : pyval) (key : string) (x : pyval) : result pyval :=
  match v with
  | PyDict d => Ok (PyDict (dict_set key x d))
  | _ => Raise TypeError
  end.

(** ** Strings *)

(** [str.lower] (the text of the model is ASCII). *)
Definition lower_char (c : ascii) : ascii :=
  let n := nat_of_ascii c in
  if (Nat.leb 65 n && Nat.leb n 90)%bool then ascii_of_nat (n + 32) else c.

Fixpoint lower (s : string) : string :=
  match s with
  | "" => ""
  | String c s' => String (lower_char c) (lower s')
  end.

(** [c in s] for a one-character [c]. *)
Fixpoint has_char (c : ascii) (s : string) : bool :=
  match s with
  | "" => false
  | String c' s' => Ascii.eqb c c' || has_char c s'
  end.

(** [s.split(sep)] for a one-character separator: never empty. *)
Fixpoint split_on (sep : ascii) (s : string) : list string :=
  match s with
  | "" => [""]
  | String c s' =>
      if Ascii.eqb c sep then "" :: split_on sep s'
      else match split_on sep s' with
           | h :: t => String c h :: t
           | [] => [String c ""]
           end
  end.

(** [str(n)] for an integer. *)
Definition str_of_Z (n : Z) : string := NilZero.string_of_int (Z.to_int n).

(** *** [int(s)] for a string *)

Definition is_space (c : ascii) : bool :=
  let n := nat_of_ascii c in
  ((Nat.leb 9 n && Nat.leb n 13) || (Nat.leb 28 n && Nat.leb n 32))%bool.

Fixpoint lstrip (s : string) : string :=
  match s with
  | String c s' => if is_space c then lstrip s' else s
  | "" => ""
  end.

Fixpoint rev_string (acc s : string) : string :=
  match s with
  | "" => acc
  | String c s' => rev_string (String c acc) s'
  end.

Definition strip (s : string) : string :=
  rev_string "" (lstrip (rev_string "" (lstrip s))).

Definition digit_of (c : ascii) : option Z :=
  let n := nat_of_ascii c in
  if (Nat.leb 48 n && Nat.leb n 57)%bool then Some (Z.of_nat (n - 48)) else None.

(** Decimal digits; Python 3 also takes one underscore between two digits. *)
Fixpoint int_digits (py : python) (acc : Z) (after_digit : bool) (s : string) : option Z :=
  match s with
  | "" => if after_digit then Some acc else None
  | String c s' =>
      match digit_of c with
      | Some d => int_digits py (10 * acc + d) true s'
      | None =>
          match py with
          | Py3 =>
              if (Ascii.eqb c "_" && after_digit)%bool
              then int_digits py acc false s' else None
          | Py2 => None
          end
      end
  end.

(** [int(s)]: surrounding white space, an optional sign, digits; [None]
    stands for [ValueError]. *)
Definition int_of_string (py : python) (s : string) : option Z :=
  match strip s with
  | String "+" r => int_digits py 0 false r
  | String "-" r => option_map Z.opp (int_digits py 0 false r)
  | r => int_digits py 0 false r
  end.

(** ** Results *)

Definition rbind {A B} (r : result A) (k : A -> result B) : result B :=
  match r with
  | Ok a => k a
  | Raise e => Raise e
  end.

(** [data['data'][0]] and [data['data'][0][group]]. *)
Definition data_0 (data : pyval) : result pyval :=
  rbind (getitem data "data") getitem0.

Definition data_0_group (data : pyval) (group : string) : result pyval :=
  rbind (data_0 data) (fun cam => getitem cam group).

(** ** The client object and the wire *)

(** The attributes [__init__] sets on a [UVCRemote]. *)
Record UVCRemote := {
  _host : string;
  _port : Z;
  _path : string;
  _ssl : bool;
  _apikey : string;
  _bootstrap : pyval
}.

(** What [_get_http_connection] connects to. *)
Record endpoint := {
  ep_ssl : bool;
  ep_host : string;
  ep_port : Z
}.

Definition _get_http_connection (self : UVCRemote) : endpoint :=
  {| ep_ssl := _ssl self; ep_host := _host self; ep_port := _port self |}.

(** The interpreter and the standard-library codecs the client runs on.
    Payloads are opaque to the client: it hands request bodies to [httplib]
    and response bodies to [zlib] and [json].  [json_loads] is
    [json.loads(data.decode())], [None] standing for the [ValueError] either
    step raises; [zlib_decompress] is [zlib.decompress(data, 32 +
    zlib.MAX_WBITS)], [None] standing for [zlib.error]. *)
Class Wire := {
  py : python;
  bytes : Type;
  json_dumps : pyval -> bytes;
  json_loads : bytes -> option pyval;
  zlib_decompress : bytes -> option bytes
}.

Record request {W : Wire} := {
  rq_method : string;
  rq_url : string;
  rq_body : option bytes;
  rq_headers : list (string * string)
}.

Record response {W : Wire} := {
  status : Z;
  reason : string;
  getheaders : list (string * string);
  read : bytes
}.

(** One exchange, [conn.request(...); conn.getresponse()] and the later
    [resp.read()], taken as a whole: it yields a response with its body or
    raises (a socket error, an [HTTPException]). *)
Inductive outcome {W : Wire} :=
| Responded (resp : response)
| Failed (e : exn).

(** The NVR: a state and its reaction to one request. *)
Class Nvr {W : Wire} := {
  server : Type;
  handle : server -> endpoint -> request -> server * outcome
}.

(** What the outside observes, in order. *)
Inductive event {W : Wire} :=
| Sent (ep : endpoint) (rq : request)
| Printed (line : string)
| PPrinted (v : pyval).

Record world {W : Wire} {N : Nvr} := {
  nvr : server;
  trace : list event
}.

(** *** State and exceptions *)

Definition M {W : Wire} {N : Nvr} (A : Type) : Type := world -> result A * world.

Definition ret {W : Wire} {N : Nvr} {A} (a : A) : M A := fun w => (Ok a, w).

Definition raise {W : Wire} {N : Nvr} {A} (e : exn) : M A := fun w => (Raise e, w).

Definition bind {W : Wire} {N : Nvr} {A B} (c : M A) (k : A -> M B) : M B :=
  fun w =>
    match c w with
    | (Ok a, w') => k a w'
    | (Raise e, w') => (Raise e, w')
    end.

Definition lift {W : Wire} {N : Nvr} {A} (r : result A) : M A := fun w => (r, w).

Definition emit {W : Wire} {N : Nvr} (ev : event) : M unit :=
  fun w => (Ok tt, {| nvr := nvr w; trace := trace w ++ [ev] |}).

(** [try: c except ...: h], [h] choosing the exceptions it catches. *)
Definition try_except {W : Wire} {N : Nvr} {A} (c : M A) (h : exn -> option (M A)) : M A :=
  fun w =>
    match c w with
    | (Ok a, w') => (Ok a, w')
    | (Raise e, w') =>
        match h e with
        | Some k => k w'
        | None => (Raise e, w')
        end
    end.

Notation "x <- c ;; k" := (bind c (fun x => k))
  (at level 61, c at next level, right associativity).

(** One HTTP exchange on a fresh connection. *)
Definition http {W : Wire} {N : Nvr} (ep : endpoint) (rq : request) : M response :=
  fun w =>
    let (s', out) := handle (nvr w) ep rq in
    let w' := {| nvr := s'; trace := trace w ++ [Sent ep rq] |} in
    match out with
    | Responded resp => (Ok resp, w')
    | Failed e => (Raise e, w')
    end.

(** ** nvr.py: the request helper *)

(** [status / 100 != 2]: [/] floors two ints in Python 2 and is true
    division in Python 3 (the float quotient of two ints is the correctly
    rounded exact quotient, so comparing the exact quotient with 2 decides
    the same). *)
Definition status_div_100_ne_2 {W : Wire} (st : Z) : bool :=
  match py with
  | Py2 => negb (st / 100 =? 2)
  | Py3 => negb (Qeq_bool (inject_Z st / inject_Z 100) (inject_Z 2))
  end.

(** [headers.get(name) == value] on [headers = dict(resp.getheaders())]. *)
Definition header_is (hs : list (string * string)) (name value : string) : bool :=
  match dict_get name (dict_of_pairs hs) with
  | Some v => String.eqb v value
  | None => false
  end.

Definition request_headers (mimetype : string) : list (string * string) :=
  [("Content-Type", mimetype);
   ("Accept", "application/json, text/javascript, */*; q=0.01");
   ("Accept-Encoding", "gzip, deflate, sdch")].

Definition _uvc_request_safe {W : Wire} {N : Nvr} (self : UVCRemote)
    (path method : string) (data : option bytes) (mimetype : string) : M pyval :=
  let conn := _get_http_connection self in
  let url :=
    if has_char "?" path then path ++ "&apiKey=" ++ _apikey self
    else path ++ "?apiKey=" ++ _apikey self in
  let headers := request_headers mimetype in
  resp <- http conn {| rq_method := method; rq_url := url;
                       rq_body := data; rq_headers := headers |} ;;
  let headers := getheaders resp in
  if (status resp =? 401) || (status resp =? 403) then
    raise (NotAuthorized "NVR reported authorization failure")
  else if status_div_100_ne_2 (status resp) then
    raise (NvrError ("Request failed: " ++ str_of_Z (status resp)))
  else
    let data := read resp in
    data <- (if header_is headers "content-encoding" "gzip"
                || header_is headers "Content-Encoding" "gzip"
             then match zlib_decompress data with
                  | Some d => ret d
                  | None => raise ZlibError
                  end
             else ret data) ;;
    match json_loads data with
    | Some v => ret v
    | None => raise ValueError
    end.

Definition _uvc_request {W : Wire} {N : Nvr} (self : UVCRemote)
    (path method : string) (data : option bytes) : M pyval :=
  try_except (_uvc_request_safe self path method data "application/json")
    (fun e =>
       match e with
       | OSError => Some (raise (NvrError "Failed to contact NVR"))
       | HTTPException msg =>
           Some (raise (NvrError ("Error connecting to camera: " ++ msg)))
       | _ => None
       end).

Definition _get_bootstrap {W : Wire} {N : Nvr} (self : UVCRemote) : M pyval :=
  data <- _uvc_request self "/api/2.0/bootstrap" "GET" None ;;
  lift (data_0 data).

(** ** nvr.py: the session *)

Definition int_item {W : Wire} (l : list string) (i : nat) : result Z :=
  match nth_error l i with
  | None => Raise IndexError
  | Some c =>
      match int_of_string py c with
      | Some n => Ok n
      | None => Raise ValueError
      end
  end.

(** [self._bootstrap['systemInfo']['version']] *)
Definition bootstrap_version (self : UVCRemote) : result pyval :=
  rbind (getitem (_bootstrap self) "systemInfo") (fun info => getitem info "version").

(** The [server_version] property.  The [try] around [int(version[2])]
    catches [ValueError] only: a missing third component is an
    [IndexError]. *)
Definition server_version {W : Wire} (self : UVCRemote) : result (Z * Z * Z) :=
  rbind (bootstrap_version self)
    (fun v =>
       match v with
       | PyStr s =>
           let version := split_on "." s in
           rbind (int_item version 0) (fun major =>
           rbind (int_item version 1) (fun minor =>
           rbind (match int_item version 2 with
                  | Raise ValueError => Ok 0
                  | r => r
                  end) (fun rev =>
           Ok (major, minor, rev))))
       | _ => Raise AttributeError
       end).

(** [a >= b] on triples of ints: Python orders tuples lexicographically. *)
Definition tuple_ge (a b : Z * Z * Z) : bool :=
  let '(a1, a2, a3) := a in
  let '(b1, b2, b3) := b in
  (b1 <? a1) || ((a1 =? b1) && ((b2 <? a2) || ((a2 =? b2) && (b3 <=? a3)))).

(** The [camera_identifier] property. *)
Definition camera_identifier {W : Wire} (self : UVCRemote) : result string :=
  rbind (server_version self) (fun v =>
    if tuple_ge v (3, 2, 0) then Ok "id" else Ok "uuid").

(** [UVCRemote(host, port, apikey, path, ssl)].  The logger and its debug
    lines are left out; [server_version] is still evaluated for the version
    line, and may raise. *)
Definition __init__ {W : Wire} {N : Nvr} (host : string) (port : Z)
    (apikey path : string) (ssl : bool) : M UVCRemote :=
  if negb (String.eqb path "/") then raise (Invalid "Path not supported yet")
  else
    let self := {| _host := host; _port := port; _path := path; _ssl := ssl;
                   _apikey := apikey; _bootstrap := PyNone |} in
    bootstrap <- _get_bootstrap self ;;
    let self := {| _host := host; _port := port; _path := path; _ssl := ssl;
                   _apikey := apikey; _bootstrap := bootstrap |} in
    version <- lift (server_version self) ;;
    ret self.

(** ** nvr.py: getters *)

(** ['/api/2.0/camera/%s' % uuid] *)
Definition camera_url (uuid : string) : string := "/api/2.0/camera/" ++ uuid.

Definition dump {W : Wire} {N : Nvr} (self : UVCRemote) (uuid : string) : M unit :=
  data <- _uvc_request self (camera_url uuid) "GET" None ;;
  emit (PPrinted data).

(** [d[key] == v], [d[key] > 0] and [a and b]. *)
Definition item_eq (d : pyval) (key : string) (v : pyval) : result bool :=
  rbind (getitem d key) (fun x => Ok (py_eq x v)).

Definition item_gt_zero {W : Wire} (d : pyval) (key : string) : result bool :=
  rbind (getitem d key) (py_gt_zero py).

Definition py_and (a b : result bool) : result bool :=
  rbind a (fun x => if x then b else Ok false).

Definition get_externalirmode {W : Wire} {N : Nvr} (self : UVCRemote)
    (uuid : string) : M string :=
  let url := camera_url uuid in
  data <- _uvc_request self url "GET" None ;;
  camerasettings <- lift (data_0_group data "ispSettings") ;;
  c <- lift (item_eq camerasettings "enableExternalIr" (PyInt 0)) ;;
  if c then ret "off" else
  c <- lift (item_eq camerasettings "enableExternalIr" (PyInt 1)) ;;
  if c then ret "on" else
  ret "unknown".

Definition get_showosddatemode {W : Wire} {N : Nvr} (self : UVCRemote)
    (uuid : string) : M string :=
  let url := camera_url uuid in
  data <- _uvc_request self url "GET" None ;;
  camerasettings <- lift (data_0_group data "osdSettings") ;;
  c <- lift (item_eq camerasettings "enableDate" (PyInt 0)) ;;
  if c then ret "off" else
  c <- lift (item_eq camerasettings "enableDate" (PyInt 1)) ;;
  if c then ret "on" else
  ret "unknown".

Definition get_showosdlogomode {W : Wire} {N : Nvr} (self : UVCRemote)
    (uuid : string) : M string :=
  let url := camera_url uuid in
  data <- _uvc_request self url "GET" None ;;
  camerasettings <- lift (data_0_group data "osdSettings") ;;
  c <- lift (item_eq camerasettings "enableLogo" (PyInt 0)) ;;
  if c then ret "off" else
  c <- lift (item_eq camerasettings "enableLogo" (PyInt 1)) ;;
  if c then ret "on" else
  ret "unknown".

Definition get_brightness {W : Wire} {N : Nvr} (self : UVCRemote)
    (uuid : string) : M pyval :=
  let url := camera_url uuid in
  data <- _uvc_request self url "GET" None ;;
  camerasettings <- lift (data_0_group data "ispSettings") ;;
  lift (getitem camerasettings "brightness").

Definition get_lensdistortioncorrectionmode {W : Wire} {N : Nvr}
    (self : UVCRemote) (uuid : string) : M string :=
  let url := camera_url uuid in
  data <- _uvc_request self url "GET" None ;;
  camerasettings <- lift (data_0_group data "ispSettings") ;;
  c <- lift (item_eq camerasettings "lensDistortionCorrection" (PyInt 0)) ;;
  if c then ret "off" else
  c <- lift (item_eq camerasettings "lensDistortionCorrection" (PyInt 1)) ;;
  if c then ret "on" else
  ret "unknown".

Definition get_aemode {W : Wire} {N : Nvr} (self : UVCRemote)
    (uuid : string) : M string :=
  let url := camera_url uuid in
  data <- _uvc_request self url "GET" None ;;
  camerasettings <- lift (data_0_group data "ispSettings") ;;
  c <- lift (item_eq camerasettings "aemode" (PyStr "auto")) ;;
  if c then ret "normal" else
  c <- lift (item_eq camerasettings "aemode" (PyStr "flick50")) ;;
  if c then ret "anti-flicker for 50hz light" else
  c <- lift (item_eq camerasettings "aemode" (PyStr "flick60")) ;;
  if c then ret "anti-flicker for 60hz light" else
  ret "unknown".

Definition get_aggressiveantiflicker {W : Wire} {N : Nvr} (self : UVCRemote)
    (uuid : string) : M string :=
  let url := camera_url uuid in
  data <- _uvc_request self url "GET" None ;;
  camerasettings <- lift (data_0_group data "ispSettings") ;;
  c <- lift (item_eq camerasettings "aggressiveAntiFlicker" (PyInt 0)) ;;
  if c then ret "disabled" else
  c <- lift (item_eq camerasettings "aggressiveAntiFlicker" (PyInt 1)) ;;
  if c then ret "enabled" else
  ret "unknown".

Definition get_orientation {W : Wire} {N : Nvr} (self : UVCRemote)
    (uuid : string) : M string :=
  let url := camera_url uuid in
  data <- _uvc_request self url "GET" None ;;
  camerasettings <- lift (data_0_group data "ispSettings") ;;
  c <- lift (py_and (item_eq camerasettings "flip" (PyInt 0))
                    (item_eq camerasettings "mirror" (PyInt 0))) ;;
  if c then ret "normal" else
  c <- lift (py_and (item_eq camerasettings "flip" (PyInt 0))
                    (item_eq camerasettings "mirror" (PyInt 1))) ;;
  if c then ret "flip horizontally" else
  c <- lift (py_and (item_eq camerasettings "flip" (PyInt 1))
                    (item_eq camerasettings "mirror" (PyInt 0))) ;;
  if c then ret "flip vertically" else
  c <- lift (py_and (item_eq camerasettings "flip" (PyInt 1))
                    (item_eq camerasettings "mirror" (PyInt 1))) ;;
  if c then ret "flip both horizontally and vertically" else
  ret "unknown".

Definition get_irsensitivity {W : Wire} {N : Nvr} (self : UVCRemote)
    (uuid : string) : M string :=
  let url := camera_url uuid in
  data <- _uvc_request self url "GET" None ;;
  camerasettings <- lift (data_0_group data "ispSettings") ;;
  c <- lift (item_eq camerasettings "icrSensitivity" (PyInt 0)) ;;
  if c then ret "low" else
  c <- lift (item_eq camerasettings "icrSensitivity" (PyInt 1)) ;;
  if c then ret "medium" else
  c <- lift (item_eq camerasettings "icrSensitivity" (PyInt 2)) ;;
  if c then ret "high" else
  ret "unknown".

Definition get_irledmode {W : Wire} {N : Nvr} (self : UVCRemote)
    (uuid : string) : M string :=
  let url := camera_url uuid in
  data <- _uvc_request self url "GET" None ;;
  irledmodes <- lift (data_0_group data "ispSettings") ;;
  c <- lift (item_eq irledmodes "irLedMode" (PyStr "auto")) ;;
  if c then ret "auto" else
  c <- lift (py_and (item_eq irledmodes "irLedMode" (PyStr "manual"))
                    (item_eq irledmodes "irLedLevel" (PyInt 0))) ;;
  if c then ret "off" else
  c <- lift (py_and (item_eq irledmodes "irLedMode" (PyStr "manual"))
                    (item_gt_zero irledmodes "irLedLevel")) ;;
  if c then ret "on" else
  ret "unknown".

Definition get_recordmode {W : Wire} {N : Nvr} (self : UVCRemote)
    (uuid : string) : M string :=
  let url := camera_url uuid in
  data <- _uvc_request self url "GET" None ;;
  recmodes <- lift (data_0_group data "recordingSettings") ;;
  c <- lift (rbind (getitem recmodes "fullTimeRecordEnabled")
                   (fun x => Ok (py_truthy x))) ;;
  if c then ret "full" else
  c <- lift (rbind (getitem recmodes "motionRecordEnabled")
                   (fun x => Ok (py_truthy x))) ;;
  if c then ret "motion" else
  ret "none".

Definition get_enablestatusled {W : Wire} {N : Nvr} (self : UVCRemote)
    (uuid : string) : M pyval :=
  let url := camera_url uuid in
  data <- _uvc_request self url "GET" None ;;
  lift (data_0_group data "enableStatusLed").

(** ** nvr.py: setters *)

(** [settings = data['data'][0][group]] names the dictionary inside [data],
    not a copy, and [json.loads] builds a tree without sharing: after the
    assignments through [settings], [data['data'][0]] is the camera whose
    [group] entry holds the updated dictionary. *)
Definition data_0_with_group (data : pyval) (group : string) (settings : pyval)
    : result pyval :=
  rbind (data_0 data) (fun cam => setitem cam group settings).

(** [data['data'][0][key] = x], giving [data['data'][0]] afterwards. *)
Definition data_0_setitem (data : pyval) (key : string) (x : pyval) : result pyval :=
  rbind (data_0 data) (fun cam => setitem cam key x).

(** The class defines [set_enablestatusled] and
    [set_enablesuggestedvideosettings] more than once, with the same body;
    the last definition of each is the method. *)
Definition set_enablestatusled {W : Wire} {N : Nvr} (self : UVCRemote)
    (uuid state : string) : M pyval :=
  let url := camera_url uuid in
  data <- _uvc_request self url "GET" None ;;
  let state := lower state in
  camera <- (if String.eqb state "true" then
               lift (data_0_setitem data "enableStatusLed" (PyBool true))
             else if String.eqb state "false" then
               lift (data_0_setitem data "enableStatusLed" (PyBool false))
             else raise (Invalid "Unknown mode")) ;;
  data <- _uvc_request self url "PUT" (Some (json_dumps camera)) ;;
  updated <- lift (data_0_group data "enableStatusLed") ;;
  ret (PyBool (py_eq data updated)).

Definition set_enablesuggestedvideosettings {W : Wire} {N : Nvr}
    (self : UVCRemote) (uuid state : string) : M pyval :=
  let url := camera_url uuid in
  data <- _uvc_request self url "GET" None ;;
  let state := lower state in
  camera <- (if String.eqb state "true" then
               lift (data_0_setitem data "enableSuggestedVideoSettings" (PyBool true))
             else if String.eqb state "false" then
               lift (data_0_setitem data "enableSuggestedVideoSettings" (PyBool false))
             else raise (Invalid "Unknown mode")) ;;
  data <- _uvc_request self url "PUT" (Some (json_dumps camera)) ;;
  updated <- lift (data_0_group data "enableSuggestedVideoSettings") ;;
  ret (PyBool (py_eq data updated)).

Definition set_externalirmode {W : Wire} {N : Nvr} (self : UVCRemote)
    (uuid mode : string) : M pyval :=
  let url := camera_url uuid in
  data <- _uvc_request self url "GET" None ;;
  settings <- lift (data_0_group data "ispSettings") ;;
  let mode := lower mode in
  settings <- (if String.eqb mode "off" then
                 lift (setitem settings "enableExternalIr" (PyInt 0))
               else if String.eqb mode "on" then
                 lift (setitem settings "enableExternalIr" (PyInt 1))
               else raise (Invalid "Unknown mode")) ;;
  camera <- lift (data_0_with_group data "ispSettings" settings) ;;
  data <- _uvc_request self url "PUT" (Some (json_dumps camera)) ;;
  updated <- lift (data_0_group data "ispSettings") ;;
  ret (PyBool (py_eq settings updated)).

Definition set_showosddatemode {W : Wire} {N : Nvr} (self : UVCRemote)
    (uuid mode : string) : M pyval :=
  let url := camera_url uuid in
  data <- _uvc_request self url "GET" None ;;
  settings <- lift (data_0_group data "osdSettings") ;;
  let mode := lower mode in
  settings <- (if String.eqb mode "off" then
                 lift (setitem settings "enableDate" (PyInt 0))
               else if String.eqb mode "on" then
                 lift (setitem settings "enableDate" (PyInt 1))
               else raise (Invalid "Unknown mode")) ;;
  camera <- lift (data_0_with_group data "osdSettings" settings) ;;
  data <- _uvc_request self url "PUT" (Some (json_dumps camera)) ;;
  updated <- lift (data_0_group data "osdSettings") ;;
  ret (PyBool (py_eq settings updated)).

Definition set_showosdlogomode {W : Wire} {N : Nvr} (self : UVCRemote)
    (uuid mode : string) : M pyval :=
  let url := camera_url uuid in
  data <- _uvc_request self url "GET" None ;;
  settings <- lift (data_0_group data "osdSettings") ;;
  let mode := lower mode in
  settings <- (if String.eqb mode "off" then
                 lift (setitem settings "enableLogo" (PyInt 0))
               else if String.eqb mode "on" then
                 lift (setitem settings "enableLogo" (PyInt 1))
               else raise (Invalid "Unknown mode")) ;;
  camera <- lift (data_0_with_group data "osdSettings" settings) ;;
  data <- _uvc_request self url "PUT" (Some (json_dumps camera)) ;;
  updated <- lift (data_0_group data "osdSettings") ;;
  ret (PyBool (py_eq settings updated)).

(** [set_brightness] ends after [updated = ...]: it has no [return]. *)
Definition set_brightness {W : Wire} {N : Nvr} (self : UVCRemote)
    (uuid : string) (level : pyval) : M pyval :=
  let url := camera_url uuid in
  data <- _uvc_request self url "GET" None ;;
  settings <- lift (data_0_group data "ispSettings") ;;
  settings <- lift (setitem settings "brightness" level) ;;
  camera <- lift (data_0_with_group data "ispSettings" settings) ;;
  data <- _uvc_request self url "PUT" (Some (json_dumps camera)) ;;
  updated <- lift (data_0_group data "ispSettings") ;;
  ret PyNone.

Definition set_lensdistortioncorrectionmode {W : Wire} {N : Nvr}
    (self : UVCRemote) (uuid mode : string) : M pyval :=
  let url := camera_url uuid in
  data <- _uvc_request self url "GET" None ;;
  settings <- lift (data_0_group data "ispSettings") ;;
  let mode := lower mode in
  settings <- (if String.eqb mode "off" then
                 lift (setitem settings "lensDistortionCorrection" (PyInt 0))
               else if String.eqb mode "on" then
                 lift (setitem settings "lensDistortionCorrection" (PyInt 1))
               else raise (Invalid "Unknown mode")) ;;
  camera <- lift (data_0_with_group data "ispSettings" settings) ;;
  data <- _uvc_request self url "PUT" (Some (json_dumps camera)) ;;
  updated <- lift (data_0_group data "ispSettings") ;;
  ret (PyBool (py_eq settings updated)).

Definition set_aemode {W : Wire} {N : Nvr} (self : UVCRemote)
    (uuid mode : string) : M pyval :=
  let url := camera_url uuid in
  data <- _uvc_request self url "GET" None ;;
  settings <- lift (data_0_group data "ispSettings") ;;
  let mode := lower mode in
  settings <- (if String.eqb mode "normal" then
                 lift (setitem settings "aemode" (PyStr "auto"))
               else if String.eqb mode "antiflicker50hz" then
                 lift (setitem settings "aemode" (PyStr "flick50"))
               else if String.eqb mode "antiflicker60hz" then
                 lift (setitem settings "aemode" (PyStr "flick60"))
               else raise (Invalid "Unknown mode")) ;;
  camera <- lift (data_0_with_group data "ispSettings" settings) ;;
  data <- _uvc_request self url "PUT" (Some (json_dumps camera)) ;;
  updated <- lift (data_0_group data "ispSettings") ;;
  ret (PyBool (py_eq settings updated)).

Definition set_aggressiveantiflicker {W : Wire} {N : Nvr} (self : UVCRemote)
    (uuid mode : string) : M pyval :=
  let url := camera_url uuid in
  data <- _uvc_request self url "GET" None ;;
  settings <- lift (data_0_group data "ispSettings") ;;
  let mode := lower mode in
  settings <- (if String.eqb mode "disabled" then
                 lift (setitem settings "aggressiveAntiFlicker" (PyInt 0))
               else if String.eqb mode "enabled" then
                 lift (setitem settings "aggressiveAntiFlicker" (PyInt 1))
               else raise (Invalid "Unknown mode")) ;;
  camera <- lift (data_0_with_group data "ispSettings" settings) ;;
  data <- _uvc_request self url "PUT" (Some (json_dumps camera)) ;;
  updated <- lift (data_0_group data "ispSettings") ;;
  ret (PyBool (py_eq settings updated)).

Definition set_irsensitivity {W : Wire} {N : Nvr} (self : UVCRemote)
    (uuid level : string) : M pyval :=
  let url := camera_url uuid in
  data <- _uvc_request self url "GET" None ;;
  settings <- lift (data_0_group data "ispSettings") ;;
  let level := lower level in
  settings <- (if String.eqb level "low" then
                 lift (setitem settings "icrSensitivity" (PyInt 0))
               else if String.eqb level "medium" then
                 lift (setitem settings "icrSensitivity" (PyInt 1))
               else if String.eqb level "high" then
                 lift (setitem settings "icrSensitivity" (PyInt 2))
               else raise (Invalid "Unknown mode")) ;;
  camera <- lift (data_0_with_group data "ispSettings" settings) ;;
  data <- _uvc_request self url "PUT" (Some (json_dumps camera)) ;;
  updated <- lift (data_0_group data "ispSettings") ;;
  ret (PyBool (py_eq settings updated)).

(** [d[k1] = v1; d[k2] = v2] *)
Definition setitem2 (d : pyval) (k1 : string) (v1 : pyval) (k2 : string) (v2 : pyval)
    : result pyval :=
  rbind (setitem d k1 v1) (fun d' => setitem d' k2 v2).

Definition set_irledmode {W : Wire} {N : Nvr} (self : UVCRemote)
    (uuid mode : string) : M pyval :=
  let url := camera_url uuid in
  data <- _uvc_request self url "GET" None ;;
  settings <- lift (data_0_group data "ispSettings") ;;
  let mode := lower mode in
  settings <- (if String.eqb mode "off" then
                 lift (setitem2 settings "irLedLevel" (PyInt 0)
                                         "irLedMode" (PyStr "manual"))
               else if String.eqb mode "on" then
                 lift (setitem2 settings "irLedLevel" (PyInt 215)
                                         "irLedMode" (PyStr "manual"))
               else if String.eqb mode "auto" then
                 lift (setitem2 settings "irLedLevel" (PyInt 215)
                                         "irLedMode" (PyStr "auto"))
               else raise (Invalid "Unknown mode")) ;;
  camera <- lift (data_0_with_group data "ispSettings" settings) ;;
  data <- _uvc_request self url "PUT" (Some (json_dumps camera)) ;;
  updated <- lift (data_0_group data "ispSettings") ;;
  ret (PyBool (py_eq settings updated)).

Definition CHANNEL_NAMES : list string := ["high"; "medium"; "low"].

(** [l.index(x)]: [ValueError] when [x] is not in [l]. *)
Fixpoint list_index (x : string) (l : list string) : result Z :=
  match l with
  | [] => Raise ValueError
  | y :: l' => if String.eqb x y then Ok 0 else rbind (list_index x l') (fun i => Ok (i + 1))
  end.

(** [chan] is [None] or a string; [if chan:] takes a non-empty string. *)
Definition set_recordmode {W : Wire} {N : Nvr} (self : UVCRemote)
    (uuid mode : string) (chan : option string) : M pyval :=
  _ <- dump self uuid ;;
  let url := camera_url uuid in
  data <- _uvc_request self url "GET" None ;;
  settings <- lift (data_0_group data "recordingSettings") ;;
  let mode := lower mode in
  settings <- (if String.eqb mode "none" then
                 lift (setitem2 settings "fullTimeRecordEnabled" (PyBool false)
                                         "motionRecordEnabled" (PyBool false))
               else if String.eqb mode "full" then
                 lift (setitem2 settings "fullTimeRecordEnabled" (PyBool true)
                                         "motionRecordEnabled" (PyBool false))
               else if String.eqb mode "motion" then
                 lift (setitem2 settings "fullTimeRecordEnabled" (PyBool false)
                                         "motionRecordEnabled" (PyBool true))
               else raise (Invalid "Unknown mode")) ;;
  settings <- (match chan with
               | Some c =>
                   if negb (String.eqb c "") then
                     lift (rbind (list_index c CHANNEL_NAMES) (fun i =>
                             setitem settings "channel" (PyInt i)))
                   else ret settings
               | None => ret settings
               end) ;;
  camera <- lift (data_0_with_group data "recordingSettings" settings) ;;
  data <- _uvc_request self url "PUT" (Some (json_dumps camera)) ;;
  updated <- lift (data_0_group data "recordingSettings") ;;
  ret (PyBool (py_eq settings updated)).

(** ** nvr.py: the camera index *)

(** [for x in v]: the elements of a list, the keys of a dictionary, the
    characters of a string. *)
Fixpoint chars (s : string) : list pyval :=
  match s with
  | "" => []
  | String c s' => PyStr (String c "") :: chars s'
  end.

Definition py_iter (v : pyval) : result (list pyval) :=
  match v with
  | PyList l => Ok l
  | PyDict d => Ok (map (fun kv => PyStr (fst kv)) d)
  | PyStr s => Ok (chars s)
  | _ => Raise TypeError
  end.

(** The list comprehension of [index]: the filter [not x['deleted']] is
    evaluated before the dictionary display, its items left to right. *)
Fixpoint index_entries (cams : list pyval) : result (list pyval) :=
  match cams with
  | [] => Ok []
  | x :: cams' =>
      rbind (getitem x "deleted") (fun deleted =>
        if negb (py_truthy deleted) then
          rbind (getitem x "name") (fun name =>
          rbind (getitem x "uuid") (fun uuid =>
          rbind (getitem x "state") (fun state =>
          rbind (getitem x "managed") (fun managed =>
          rbind (getitem x "_id") (fun id =>
          rbind (index_entries cams') (fun rest =>
          Ok (PyDict [("name", name); ("uuid", uuid); ("state", state);
                      ("managed", managed); ("id", id)] :: rest)))))))
        else index_entries cams')
  end.

Definition index {W : Wire} {N : Nvr} (self : UVCRemote) : M (list pyval) :=
  data <- _uvc_request self "/api/2.0/camera" "GET" None ;;
  cams <- lift (rbind (getitem data "data") py_iter) ;;
  lift (index_entries cams).

(** A dictionary keyed by arbitrary values ([cams_by_name]): keys are
    compared with [==]; lists and dictionaries are unhashable. *)
Definition hashable (v : pyval) : bool :=
  match v with
  | PyList _ | PyDict _ => false
  | _ => true
  end.

Fixpoint kv_get (k : pyval) (d : list (pyval * pyval)) : option pyval :=
  match d with
  | [] => None
  | (k', v) :: d' => if py_eq k' k then Some v else kv_get k d'
  end.

Fixpoint kv_set (k v : pyval) (d : list (pyval * pyval)) : list (pyval * pyval) :=
  match d with
  | [] => [(k, v)]
  | (k', v') :: d' =>
      if py_eq k' k then (k', v) :: d' else (k', v') :: kv_set k v d'
  end.

(** [{x['name']: x[ident] for x in cameras}]: items are stored in order, a
    repeated key is overwritten. *)
Fixpoint by_name (ident : string) (cameras : list pyval) (acc : list (pyval * pyval))
    : result (list (pyval * pyval)) :=
  match cameras with
  | [] => Ok acc
  | x :: cameras' =>
      rbind (getitem x "name") (fun name =>
      rbind (getitem x ident) (fun v =>
        if hashable name then by_name ident cameras' (kv_set name v acc)
        else Raise TypeError))
  end.

Definition name_to_uuid {W : Wire} {N : Nvr} (self : UVCRemote) (name : string)
    : M pyval :=
  cameras <- index self ;;
  version <- lift (server_version self) ;;
  cams_by_name <- (if tuple_ge version (3, 2, 0)
                   then lift (by_name "id" cameras [])
                   else lift (by_name "uuid" cameras [])) ;;
  ret (match kv_get (PyStr name) cams_by_name with
       | Some v => v
       | None => PyNone
       end).

(** ** main.py: the [--delete-allalerts] branch *)

(** The two methods [main] calls on the client for alerts; [nvr.py] does not
    define them, so the branch is taken over any implementation: listing the
    alert records, and re-submitting one alert. *)
Class AlertMethods {W : Wire} {N : Nvr} := {
  get_all_alerts : UVCRemote -> M pyval;
  delete_alert : UVCRemote -> pyval -> M pyval
}.

Definition print {W : Wire} {N : Nvr} (line : string) : M unit :=
  emit (Printed line).

(** [len(v)] *)
Definition py_len (v : pyval) : result Z :=
  match v with
  | PyList l => Ok (Z.of_nat (List.length l))
  | PyDict d => Ok (Z.of_nat (List.length d))
  | PyStr s => Ok (Z.of_nat (String.length s))
  | _ => Raise TypeError
  end.

(** ["Alert " + v + " Deleted"]: [v] must be a string. *)
Definition alert_deleted_line (v : pyval) : result string :=
  match v with
  | PyStr s => Ok ("Alert " ++ s ++ " Deleted")
  | _ => Raise TypeError
  end.

(** The body of the loop [for alert in data]. *)
Definition delete_one {W : Wire} {N : Nvr} {A : AlertMethods}
    (client : UVCRemote) (alert : pyval) : M unit :=
  alert <- lift (setitem alert "alertState" (PyStr "deleted")) ;;
  resp <- delete_alert client alert ;;
  c <- lift (rbind (data_0_group resp "_id") (fun rid =>
             rbind (getitem alert "_id") (fun aid => Ok (py_eq rid aid)))) ;;
  if c then
    line <- lift (rbind (data_0_group resp "_id") alert_deleted_line) ;;
    print line
  else print "Failed to delete alert".

Fixpoint delete_each {W : Wire} {N : Nvr} {A : AlertMethods}
    (client : UVCRemote) (alerts : list pyval) : M unit :=
  match alerts with
  | [] => ret tt
  | alert :: alerts' =>
      _ <- delete_one client alert ;;
      delete_each client alerts'
  end.

Definition main_delete_allalerts {W : Wire} {N : Nvr} {A : AlertMethods}
    (client : UVCRemote) : M unit :=
  data <- get_all_alerts client ;;
  alerts <- lift (py_iter data) ;;
  _ <- delete_each client alerts ;;
  data <- get_all_alerts client ;;
  n <- lift (py_len data) ;;
  if n <=? 1 then print "All alerts deleted"
  else print (str_of_Z n ++ " alerts remaining following deletion").

(** ** nvr.py: the remaining methods *)

(** [_safe_request(method, url, body, headers)]: the exchange, with socket
    and HTTP errors turned into [CameraConnectionError]. *)
Definition _safe_request {W : Wire} {N : Nvr} (self : UVCRemote) (rq : request)
    : M response :=
  try_except (http (_get_http_connection self) rq)
    (fun e =>
       match e with
       | OSError => Some (raise (CameraConnectionError "Unable to contact camera"))
       | HTTPException msg =>
           Some (raise (CameraConnectionError ("Error connecting to camera: " ++ msg)))
       | _ => None
       end).

Definition get_camera {W : Wire} {N : Nvr} (self : UVCRemote) (uuid : string)
    : M pyval :=
  data <- _uvc_request self (camera_url uuid) "GET" None ;;
  lift (data_0 data).

(** [get_snapshot]: the URL carries the key itself and is printed; the
    request has no body and no headers of the client's own. *)
Definition get_snapshot {W : Wire} {N : Nvr} (self : UVCRemote) (uuid : string)
    : M bytes :=
  let url := "/api/2.0/snapshot/camera/" ++ uuid ++ "?force=true&apiKey="
             ++ _apikey self in
  _ <- emit (Printed url) ;;
  resp <- _safe_request self {| rq_method := "GET"; rq_url := url;
                                rq_body := None; rq_headers := [] |} ;;
  if negb (status resp =? 200) then
    raise (NvrError ("Snapshot returned " ++ str_of_Z (status resp)))
  else ret (read resp).

(** [test_login]: [username] and [password] are strings or [None]. *)
Definition test_login {W : Wire} {N : Nvr} (self : UVCRemote)
    (username password : pyval) : M response :=
  let headers := [("Content-Type", "application/json")] in
  let data := json_dumps (PyDict [("username", username); ("password", password)]) in
  resp <- _safe_request self {| rq_method := "POST"; rq_url := "/api/2.0/login";
                                rq_body := Some data; rq_headers := headers |} ;;
  ret resp.

Definition prune_zones {W : Wire} {N : Nvr} (self : UVCRemote) (uuid : string)
    : M pyval :=
  let url := camera_url uuid in
  data <- _uvc_request self url "GET" None ;;
  first <- lift (rbind (data_0_group data "zones") getitem0) ;;
  camera <- lift (data_0_setitem data "zones" (PyList [first])) ;;
  _ <- _uvc_request self url "PUT" (Some (json_dumps camera)) ;;
  ret PyNone.

Definition list_zones {W : Wire} {N : Nvr} (self : UVCRemote) (uuid : string)
    : M pyval :=
  let url := camera_url uuid in
  data <- _uvc_request self url "GET" None ;;
  lift (data_0_group data "zones").

Definition get_cameramicvolume {W : Wire} {N : Nvr} (self : UVCRemote)
    (uuid : string) : M pyval :=
  let url := camera_url uuid in
  data <- _uvc_request self url "GET" None ;;
  lift (data_0_group data "micVolume").

Definition set_cameramicvolume {W : Wire} {N : Nvr} (self : UVCRemote)
    (uuid : string) (volume : pyval) : M pyval :=
  let url := camera_url uuid in
  data <- _uvc_request self url "GET" None ;;
  camera <- lift (data_0_setitem data "micVolume" volume) ;;
  data <- _uvc_request self url "PUT" (Some (json_dumps camera)) ;;
  updated <- lift (data_0_group data "micVolume") ;;
  ret (PyBool (py_eq data updated)).

Definition get_recordprepaddingtime {W : Wire} {N : Nvr} (self : UVCRemote)
    (uuid : string) : M pyval :=
  let url := camera_url uuid in
  data <- _uvc_request self url "GET" None ;;
  recmodes <- lift (data_0_group data "recordingSettings") ;;
  lift (getitem recmodes "prePaddingSecs").

Definition set_recordprepaddingtime {W : Wire} {N : Nvr} (self : UVCRemote)
    (uuid : string) (seconds : pyval) : M pyval :=
  let url := camera_url uuid in
  data <- _uvc_request self url "GET" None ;;
  settings <- lift (data_0_group data "recordingSettings") ;;
  settings <- lift (setitem settings "prePaddingSecs" seconds) ;;
  camera <- lift (data_0_with_group data "recordingSettings" settings) ;;
  data <- _uvc_request self url "PUT" (Some (json_dumps camera)) ;;
  updated <- lift (data_0_group data "recordingSettings") ;;
  ret (PyBool (py_eq data updated)).

Definition get_recordpostpaddingtime {W : Wire} {N : Nvr} (self : UVCRemote)
    (uuid : string) : M pyval :=
  let url := camera_url uuid in
  data <- _uvc_request self url "GET" None ;;
  recmodes <- lift (data_0_group data "recordingSettings") ;;
  lift (getitem recmodes "postPaddingSecs").

Definition set_recordpostpaddingtime {W : Wire} {N : Nvr} (self : UVCRemote)
    (uuid : string) (seconds : pyval) : M pyval :=
  let url := camera_url uuid in
  data <- _uvc_request self url "GET" None ;;
  settings <- lift (data_0_group data "recordingSettings") ;;
  settings <- lift (setitem settings "postPaddingSecs" seconds) ;;
  camera <- lift (data_0_with_group data "recordingSettings" settings) ;;
  data <- _uvc_request self url "PUT" (Some (json_dumps camera)) ;;
  updated <- lift (data_0_group data "recordingSettings") ;;
  ret (PyBool (py_eq data updated)).

(** The level setters other than [set_brightness] read the updated value
    back from [data['data'][0]], not from its [ispSettings] group, and have
    no [return] either. *)
Definition get_irbrightness {W : Wire} {N : Nvr} (self : UVCRemote)
    (uuid : string) : M pyval :=
  let url := camera_url uuid in
  data <- _uvc_request self url "GET" None ;;
  camerasettings <- lift (data_0_group data "ispSettings") ;;
  lift (getitem camerasettings "irOnValBrightness").

Definition set_irbrightness {W : Wire} {N : Nvr} (self : UVCRemote)
    (uuid : string) (level : pyval) : M pyval :=
  let url := camera_url uuid in
  data <- _uvc_request self url "GET" None ;;
  settings <- lift (data_0_group data "ispSettings") ;;
  settings <- lift (setitem settings "irOnValBrightness" level) ;;
  camera <- lift (data_0_with_group data "ispSettings" settings) ;;
  data <- _uvc_request self url "PUT" (Some (json_dumps camera)) ;;
  updated <- lift (data_0_group data "irOnValBrightness") ;;
  ret PyNone.

Definition get_contrast {W : Wire} {N : Nvr} (self : UVCRemote)
    (uuid : string) : M pyval :=
  let url := camera_url uuid in
  data <- _uvc_request self url "GET" None ;;
  camerasettings <- lift (data_0_group data "ispSettings") ;;
  lift (getitem camerasettings "contrast").

Definition set_contrast {W : Wire} {N : Nvr} (self : UVCRemote)
    (uuid : string) (level : pyval) : M pyval :=
  let url := camera_url uuid in
  data <- _uvc_request self url "GET" None ;;
  settings <- lift (data_0_group data "ispSettings") ;;
  settings <- lift (setitem settings "contrast" level) ;;
  camera <- lift (data_0_with_group data "ispSettings" settings) ;;
  data <- _uvc_request self url "PUT" (Some (json_dumps camera)) ;;
  updated <- lift (data_0_group data "contrast") ;;
  ret PyNone.

Definition get_ircontrast {W : Wire} {N : Nvr} (self : UVCRemote)
    (uuid : string) : M pyval :=
  let url := camera_url uuid in
  data <- _uvc_request self url "GET" None ;;
  camerasettings <- lift (data_0_group data "ispSettings") ;;
  lift (getitem camerasettings "irOnValContrast").

Definition set_ircontrast {W : Wire} {N : Nvr} (self : UVCRemote)
    (uuid : string) (level : pyval) : M pyval :=
  let url := camera_url uuid in
  data <- _uvc_request self url "GET" None ;;
  settings <- lift (data_0_group data "ispSettings") ;;
  settings <- lift (setitem settings "irOnValContrast" level) ;;
  camera <- lift (data_0_with_group data "ispSettings" settings) ;;
  data <- _uvc_request self url "PUT" (Some (json_dumps camera)) ;;
  updated <- lift (data_0_group data "irOnValContrast") ;;
  ret PyNone.

Definition get_denoise {W : Wire} {N : Nvr} (self : UVCRemote)
    (uuid : string) : M pyval :=
  let url := camera_url uuid in
  data <- _uvc_request self url "GET" None ;;
  camerasettings <- lift (data_0_group data "ispSettings") ;;
  lift (getitem camerasettings "denoise").

Definition set_denoise {W : Wire} {N : Nvr} (self : UVCRemote)
    (uuid : string) (level : pyval) : M pyval :=
  let url := camera_url uuid in
  data <- _uvc_request self url "GET" None ;;
  settings <- lift (data_0_group data "ispSettings") ;;
  settings <- lift (setitem settings "denoise" level) ;;
  camera <- lift (data_0_with_group data "ispSettings" settings) ;;
  data <- _uvc_request self url "PUT" (Some (json_dumps camera)) ;;
  updated <- lift (data_0_group data "denoise") ;;
  ret PyNone.

Definition get_irdenoise {W : Wire} {N : Nvr} (self : UVCRemote)
    (uuid : string) : M pyval :=
  let url := camera_url uuid in
  data <- _uvc_request self url "GET" None ;;
  camerasettings <- lift (data_0_group data "ispSettings") ;;
  lift (getitem camerasettings "irOnValDenoise").

Definition set_irdenoise {W : Wire} {N : Nvr} (self : UVCRemote)
    (uuid : string) (level : pyval) : M pyval :=
  let url := camera_url uuid in
  data <- _uvc_request self url "GET" None ;;
  settings <- lift (data_0_group data "ispSettings") ;;
  settings <- lift (setitem settings "irOnValDenoise" level) ;;
  camera <- lift (data_0_with_group data "ispSettings" settings) ;;
  data <- _uvc_request self url "PUT" (Some (json_dumps camera)) ;;
  updated <- lift (data_0_group data "irOnValDenoise") ;;
  ret PyNone.

Definition get_hue {W : Wire} {N : Nvr} (self : UVCRemote)
    (uuid : string) : M pyval :=
  let url := camera_url uuid in
  data <- _uvc_request self url "GET" None ;;
  camerasettings <- lift (data_0_group data "ispSettings") ;;
  lift (getitem camerasettings "hue").

Definition set_hue {W : Wire} {N : Nvr} (self : UVCRemote)
    (uuid : string) (level : pyval) : M pyval :=
  let url := camera_url uuid in
  data <- _uvc_request self url "GET" None ;;
  settings <- lift (data_0_group data "ispSettings") ;;
  settings <- lift (setitem settings "hue" level) ;;
  camera <- lift (data_0_with_group data "ispSettings" settings) ;;
  data <- _uvc_request self url "PUT" (Some (json_dumps camera)) ;;
  updated <- lift (data_0_group data "hue") ;;
  ret PyNone.

Definition get_irhue {W : Wire} {N : Nvr} (self : UVCRemote)
    (uuid : string) : M pyval :=
  let url := camera_url uuid in
  data <- _uvc_request self url "GET" None ;;
  camerasettings <- lift (data_0_group data "ispSettings") ;;
  lift (getitem camerasettings "irOnValHue").

Definition set_irhue {W : Wire} {N : Nvr} (self : UVCRemote)
    (uuid : string) (level : pyval) : M pyval :=
  let url := camera_url uuid in
  data <- _uvc_request self url "GET" None ;;
  settings <- lift (data_0_group data "ispSettings") ;;
  settings <- lift (setitem settings "irOnValHue" level) ;;
  camera <- lift (data_0_with_group data "ispSettings" settings) ;;
  data <- _uvc_request self url "PUT" (Some (json_dumps camera)) ;;
  updated <- lift (data_0_group data "irOnValHue") ;;
  ret PyNone.

Definition get_saturation {W : Wire} {N : Nvr} (self : UVCRemote)
    (uuid : string) : M pyval :=
  let url := camera_url uuid in
  data <- _uvc_request self url "GET" None ;;
  camerasettings <- lift (data_0_group data "ispSettings") ;;
  lift (getitem camerasettings "saturation").

Definition set_saturation {W : Wire} {N : Nvr} (self : UVCRemote)
    (uuid : string) (level : pyval) : M pyval :=
  let url := camera_url uuid in
  data <- _uvc_request self url "GET" None ;;
  settings <- lift (data_0_group data "ispSettings") ;;
  settings <- lift (setitem settings "saturation" level) ;;
  camera <- lift (data_0_with_group data "ispSettings" settings) ;;
  data <- _uvc_request self url "PUT" (Some (json_dumps camera)) ;;
  updated <- lift (data_0_group data "saturation") ;;
  ret PyNone.

Definition get_irsaturation {W : Wire} {N : Nvr} (self : UVCRemote)
    (uuid : string) : M pyval :=
  let url := camera_url uuid in
  data <- _uvc_request self url "GET" None ;;
  camerasettings <- lift (data_0_group data "ispSettings") ;;
  lift (getitem camerasettings "irOnValSaturation").

Definition set_irsaturation {W : Wire} {N : Nvr} (self : UVCRemote)
    (uuid : string) (level : pyval) : M pyval :=
  let url := camera_url uuid in
  data <- _uvc_request self url "GET" None ;;
  settings <- lift (data_0_group data "ispSettings") ;;
  settings <- lift (setitem settings "irOnValSaturation" level) ;;
  camera <- lift (data_0_with_group data "ispSettings" settings) ;;
  data <- _uvc_request self url "PUT" (Some (json_dumps camera)) ;;
  updated <- lift (data_0_group data "irOnValSaturation") ;;
  ret PyNone.

Definition get_sharpness {W : Wire} {N : Nvr} (self : UVCRemote)
    (uuid : string) : M pyval :=
  let url := camera_url uuid in
  data <- _uvc_request self url "GET" None ;;
  camerasettings <- lift (data_0_group data "ispSettings") ;;
  lift (getitem camerasettings "sharpness").

Definition set_sharpness {W : Wire} {N : Nvr} (self : UVCRemote)
    (uuid : string) (level : pyval) : M pyval :=
  let url := camera_url uuid in
  data <- _uvc_request self url "GET" None ;;
  settings <- lift (data_0_group data "ispSettings") ;;
  settings <- lift (setitem settings "sharpness" level) ;;
  camera <- lift (data_0_with_group data "ispSettings" settings) ;;
  data <- _uvc_request self url "PUT" (Some (json_dumps camera)) ;;
  updated <- lift (data_0_group data "sharpness") ;;
  ret PyNone.

Definition get_irsharpness {W : Wire} {N : Nvr} (self : UVCRemote)
    (uuid : string) : M pyval :=
  let url := camera_url uuid in
  data <- _uvc_request self url "GET" None ;;
  camerasettings <- lift (data_0_group data "ispSettings") ;;
  lift (getitem camerasettings "irOnValSharpness").

Definition set_irsharpness {W : Wire} {N : Nvr} (self : UVCRemote)
    (uuid : string) (level : pyval) : M pyval :=
  let url := camera_url uuid in
  data <- _uvc_request self url "GET" None ;;
  settings <- lift (data_0_group data "ispSettings") ;;
  settings <- lift (setitem settings "irOnValSharpness" level) ;;
  camera <- lift (data_0_with_group data "ispSettings" settings) ;;
  data <- _uvc_request self url "PUT" (Some (json_dumps camera)) ;;
  updated <- lift (data_0_group data "irOnValSharpness") ;;
  ret PyNone.

Definition get_wdr {W : Wire} {N : Nvr} (self : UVCRemote)
    (uuid : string) : M pyval :=
  let url := camera_url uuid in
  data <- _uvc_request self url "GET" None ;;
  camerasettings <- lift (data_0_group data "ispSettings") ;;
  lift (getitem camerasettings "wdr").

Definition set_wdr {W : Wire} {N : Nvr} (self : UVCRemote)
    (uuid : string) (level : pyval) : M pyval :=
  let url := camera_url uuid in
  data <- _uvc_request self url "GET" None ;;
  settings <- lift (data_0_group data "ispSettings") ;;
  settings <- lift (setitem settings "wdr" level) ;;
  camera <- lift (data_0_with_group data "ispSettings" settings) ;;
  data <- _uvc_request self url "PUT" (Some (json_dumps camera)) ;;
  updated <- lift (data_0_group data "wdr") ;;
  ret PyNone.

(** ** main.py: the [--test-login] branch *)

(** The branch's return value is the exit code. *)
Definition main_test_login {W : Wire} {N : Nvr} (client : UVCRemote)
    (username password : pyval) : M Z :=
  resp <- test_login client username password ;;
  if status resp =? 200 then
    _ <- print "login successful" ;;
    ret 0
  else
    _ <- print ("login failed status=" ++ str_of_Z (status resp)
                ++ " error=" ++ reason resp) ;;
    ret 1.

(** ** main.py: the four [--get-...] and the four setter branches *)

(** [opts.uuid] is [None] or a string; [if not opts.uuid:] takes [None]
    and the empty string.  The value a branch returns is [main]'s return
    value: an int, or the bool of [r == 'none']. *)
Definition uuid_required {W : Wire} {N : Nvr} : M pyval :=
  _ <- print "Name or UUID is required" ;;
  ret (PyInt 1).

Definition main_recordmode {W : Wire} {N : Nvr} (client : UVCRemote)
    (uuid : option string) (recordmode : string) (recordchannel : option string)
    : M pyval :=
  match uuid with
  | Some u =>
      if String.eqb u "" then uuid_required else
      r <- set_recordmode client u recordmode recordchannel ;;
      match r with
      | PyBool true => ret (PyInt 0)
      | _ => ret (PyInt 1)
      end
  | None => uuid_required
  end.

Definition main_externalirmode {W : Wire} {N : Nvr} (client : UVCRemote)
    (uuid : option string) (externalirmode : string) : M pyval :=
  match uuid with
  | Some u =>
      if String.eqb u "" then uuid_required else
      r <- set_externalirmode client u externalirmode ;;
      match r with
      | PyBool true => ret (PyInt 0)
      | _ => ret (PyInt 1)
      end
  | None => uuid_required
  end.

Definition main_irsensitivity {W : Wire} {N : Nvr} (client : UVCRemote)
    (uuid : option string) (irsensitivity : string) : M pyval :=
  match uuid with
  | Some u =>
      if String.eqb u "" then uuid_required else
      r <- set_irsensitivity client u irsensitivity ;;
      match r with
      | PyBool true => ret (PyInt 0)
      | _ => ret (PyInt 1)
      end
  | None => uuid_required
  end.

Definition main_irledmode {W : Wire} {N : Nvr} (client : UVCRemote)
    (uuid : option string) (irledmode : string) : M pyval :=
  match uuid with
  | Some u =>
      if String.eqb u "" then uuid_required else
      r <- set_irledmode client u irledmode ;;
      match r with
      | PyBool true => ret (PyInt 0)
      | _ => ret (PyInt 1)
      end
  | None => uuid_required
  end.

Definition main_get_recordmode {W : Wire} {N : Nvr} (client : UVCRemote)
    (uuid : option string) : M pyval :=
  match uuid with
  | Some u =>
      if String.eqb u "" then uuid_required else
      r <- get_recordmode client u ;;
      _ <- print r ;;
      ret (PyBool (String.eqb r "none"))
  | None => uuid_required
  end.

Definition main_get_externalirmode {W : Wire} {N : Nvr} (client : UVCRemote)
    (uuid : option string) : M pyval :=
  match uuid with
  | Some u =>
      if String.eqb u "" then uuid_required else
      r <- get_externalirmode client u ;;
      _ <- print r ;;
      ret (PyBool (String.eqb r "none"))
  | None => uuid_required
  end.

Definition main_get_irsensitivity {W : Wire} {N : Nvr} (client : UVCRemote)
    (uuid : option string) : M pyval :=
  match uuid with
  | Some u =>
      if String.eqb u "" then uuid_required else
      r <- get_irsensitivity client u ;;
      _ <- print r ;;
      ret (PyBool (String.eqb r "none"))
  | None => uuid_required
  end.

Definition main_get_irledmode {W : Wire} {N : Nvr} (client : UVCRemote)
    (uuid : option string) : M pyval :=
  match uuid with
  | Some u =>
      if String.eqb u "" then uuid_required else
      r <- get_irledmode client u ;;
      _ <- print r ;;
      ret (PyBool (String.eqb r "none"))
  | None => uuid_required
  end.

(** ** The claims' vocabularies *)

(** The enum and boolean setters of [UVCRemote], the value each accepts
    (after [lower]) and the settings group each reads before it looks at its
    argument. *)
Inductive enum_setter :=
| SEnableStatusLed
| SEnableSuggestedVideoSettings
| SExternalIrMode
| SShowOsdDateMode
| SShowOsdLogoMode
| SLensDistortionCorrectionMode
| SAeMode
| SAggressiveAntiFlicker
| SIrSensitivity
| SIrLedMode
| SRecordMode (chan : option string).

Definition call_setter {W : Wire} {N : Nvr} (s : enum_setter) (self : UVCRemote)
    (uuid value : string) : M pyval :=
  match s with
  | SEnableStatusLed => set_enablestatusled self uuid value
  | SEnableSuggestedVideoSettings => set_enablesuggestedvideosettings self uuid value
  | SExternalIrMode => set_externalirmode self uuid value
  | SShowOsdDateMode => set_showosddatemode self uuid value
  | SShowOsdLogoMode => set_showosdlogomode self uuid value
  | SLensDistortionCorrectionMode => set_lensdistortioncorrectionmode self uuid value
  | SAeMode => set_aemode self uuid value
  | SAggressiveAntiFlicker => set_aggressiveantiflicker self uuid value
  | SIrSensitivity => set_irsensitivity self uuid value
  | SIrLedMode => set_irledmode self uuid value
  | SRecordMode chan => set_recordmode self uuid value chan
  end.

Definition setter_vocabulary (s : enum_setter) : list string :=
  match s with
  | SEnableStatusLed | SEnableSuggestedVideoSettings => ["true"; "false"]
  | SExternalIrMode | SShowOsdDateMode | SShowOsdLogoMode
  | SLensDistortionCorrectionMode => ["off"; "on"]
  | SAeMode => ["normal"; "antiflicker50hz"; "antiflicker60hz"]
  | SAggressiveAntiFlicker => ["disabled"; "enabled"]
  | SIrSensitivity => ["low"; "medium"; "high"]
  | SIrLedMode => ["off"; "on"; "auto"]
  | SRecordMode _ => ["none"; "full"; "motion"]
  end.

Definition setter_group (s : enum_setter) : option string :=
  match s with
  | SEnableStatusLed | SEnableSuggestedVideoSettings => None
  | SShowOsdDateMode | SShowOsdLogoMode => Some "osdSettings"
  | SRecordMode _ => Some "recordingSettings"
  | _ => Some "ispSettings"
  end.

(** What a setter reads before it looks at its argument: the camera (after
    the [dump] of [set_recordmode]) and, in it, the setter's group. *)
Definition setter_fetch {W : Wire} {N : Nvr} (s : enum_setter) (self : UVCRemote)
    (uuid : string) : M pyval :=
  _ <- (match s with
        | SRecordMode _ => dump self uuid
        | _ => ret tt
        end) ;;
  data <- _uvc_request self (camera_url uuid) "GET" None ;;
  match setter_group s with
  | Some group => lift (data_0_group data group)
  | None => ret data
  end.

(** The getters that decode a raw value through a table, the group and the
    fields each reads, and the strings each can return. *)
Inductive enum_getter :=
| GExternalIrMode
| GShowOsdDateMode
| GShowOsdLogoMode
| GLensDistortionCorrectionMode
| GAeMode
| GAggressiveAntiFlicker
| GOrientation
| GIrSensitivity
| GIrLedMode.

Definition call_getter {W : Wire} {N : Nvr} (g : enum_getter) (self : UVCRemote)
    (uuid : string) : M string :=
  match g with
  | GExternalIrMode => get_externalirmode self uuid
  | GShowOsdDateMode => get_showosddatemode self uuid
  | GShowOsdLogoMode => get_showosdlogomode self uuid
  | GLensDistortionCorrectionMode => get_lensdistortioncorrectionmode self uuid
  | GAeMode => get_aemode self uuid
  | GAggressiveAntiFlicker => get_aggressiveantiflicker self uuid
  | GOrientation => get_orientation self uuid
  | GIrSensitivity => get_irsensitivity self uuid
  | GIrLedMode => get_irledmode self uuid
  end.

Definition getter_group (g : enum_getter) : string :=
  match g with
  | GShowOsdDateMode | GShowOsdLogoMode => "osdSettings"
  | _ => "ispSettings"
  end.

Definition getter_fields (g : enum_getter) : list string :=
  match g with
  | GExternalIrMode => ["enableExternalIr"]
  | GShowOsdDateMode => ["enableDate"]
  | GShowOsdLogoMode => ["enableLogo"]
  | GLensDistortionCorrectionMode => ["lensDistortionCorrection"]
  | GAeMode => ["aemode"]
  | GAggressiveAntiFlicker => ["aggressiveAntiFlicker"]
  | GOrientation => ["flip"; "mirror"]
  | GIrSensitivity => ["icrSensitivity"]
  | GIrLedMode => ["irLedMode"; "irLedLevel"]
  end.

Definition getter_vocabulary (g : enum_getter) : list string :=
  match g with
  | GExternalIrMode | GShowOsdDateMode | GShowOsdLogoMode
  | GLensDistortionCorrectionMode => ["off"; "on"; "unknown"]
  | GAeMode => ["normal"; "anti-flicker for 50hz light";
                "anti-flicker for 60hz light"; "unknown"]
  | GAggressiveAntiFlicker => ["disabled"; "enabled"; "unknown"]
  | GOrientation => ["normal"; "flip horizontally"; "flip vertically";
                     "flip both horizontally and vertically"; "unknown"]
  | GIrSensitivity => ["low"; "medium"; "high"; "unknown"]
  | GIrLedMode => ["auto"; "off"; "on"; "unknown"]
  end.

(** The rows of a getter's decode table: one raw value per field of
    [getter_fields].  The table of [get_irledmode] is not finite (any
    positive level is "on"): see [decodable]. *)
Definition getter_table (g : enum_getter) : list (list pyval) :=
  match g with
  | GAeMode => [[PyStr "auto"]; [PyStr "flick50"]; [PyStr "flick60"]]
  | GOrientation => [[PyInt 0; PyInt 0]; [PyInt 0; PyInt 1];
                     [PyInt 1; PyInt 0]; [PyInt 1; PyInt 1]]
  | GIrSensitivity => [[PyInt 0]; [PyInt 1]; [PyInt 2]]
  | GIrLedMode => []
  | _ => [[PyInt 0]; [PyInt 1]]
  end.

(** Do the raw values [raws] equal ([==]) the row [row], field by field? *)
Fixpoint row_matches (raws row : list pyval) : bool :=
  match raws, row with
  | [], [] => true
  | x :: raws', y :: row' => py_eq x y && row_matches raws' row'
  | _, _ => false
  end.

Definition in_table (g : enum_getter) (raws : list pyval) : bool :=
  existsb (row_matches raws) (getter_table g).

(** The raw values of the fields [fields] in the group dictionary [cs]. *)
Fixpoint raw_values (cs : list (string * pyval)) (fields : list string)
    : option (list pyval) :=
  match fields with
  | [] => Some []
  | f :: fields' =>
      match dict_get f cs, raw_values cs fields' with
      | Some x, Some xs => Some (x :: xs)
      | _, _ => None
      end
  end.

(** Is the raw reading inside the getter's decode table?  For
    [get_irledmode]: mode "auto", or mode "manual" with a level that is 0 or
    above 0. *)
Definition decodable {W : Wire} (g : enum_getter) (raws : list pyval) : bool :=
  match g, raws with
  | GIrLedMode, [mode; level] =>
      py_eq mode (PyStr "auto") ||
      (py_eq mode (PyStr "manual") &&
       (py_eq level (PyInt 0) ||
        match py_gt_zero py level with Ok b => b | Raise _ => false end))
  | GIrLedMode, _ => false
  | _, _ => in_table g raws
  end.

(** The readings on which [get_irledmode] can compare the level with 0:
    always under Python 2; under Python 3 when the mode is not "manual" or
    the level is a number. *)
Definition level_comparable {W : Wire} (g : enum_getter) (raws : list pyval) : Prop :=
  match g, raws with
  | GIrLedMode, [mode; level] =>
      py = Py2 \/ py_eq mode (PyStr "manual") = false \/ py_num level <> None
  | _, _ => True
  end.

(** The vocabularies of the round-trip claim. *)
Definition irsensitivity_vocabulary : list string := ["low"; "medium"; "high"].
Definition irledmode_vocabulary : list string := ["on"; "off"; "auto"].
Definition recordmode_vocabulary : list string := ["none"; "full"; "motion"].

(** The requests among the events of a trace, in order. *)
Definition requests_of {W : Wire} (evs : list event) : list request :=
  flat_map (fun ev => match ev with Sent _ rq => [rq] | _ => [] end) evs.

(** The channels [set_recordmode] takes: none, the empty string (skipped by
    [if chan:]) or one of [CHANNEL_NAMES]. *)
Definition valid_channel (chan : option string) : Prop :=
  match chan with
  | Some c => c = "" \/ In c CHANNEL_NAMES
  | None => True
  end.

(** The request [_uvc_request_safe] sends for its arguments. *)
Definition url_with_key (self : UVCRemote) (path : string) : string :=
  if has_char "?" path then path ++ "&apiKey=" ++ _apikey self
  else path ++ "?apiKey=" ++ _apikey self.

Definition request_sent {W : Wire} (self : UVCRemote) (path method : string)
    (data : option bytes) (mimetype : string) : request :=
  {| rq_method := method; rq_url := url_with_key self path;
     rq_body := data; rq_headers := request_headers mimetype |}.

(** What [_uvc_request_safe] makes of the body it parses. *)
Definition parsed {W : Wire} (body : bytes) : result pyval :=
  match json_loads body with
  | Some v => Ok v
  | None => Raise ValueError
  end.

(** The level setters that read the updated value back from the top of
    the camera, and the field of [ispSettings] each writes. *)
Inductive level_setter :=
| LIrBrightness
| LContrast
| LIrContrast
| LDenoise
| LIrDenoise
| LHue
| LIrHue
| LSaturation
| LIrSaturation
| LSharpness
| LIrSharpness
| LWdr.

Definition call_level_setter {W : Wire} {N : Nvr} (s : level_setter)
    (self : UVCRemote) (uuid : string) (level : pyval) : M pyval :=
  match s with
  | LIrBrightness => set_irbrightness self uuid level
  | LContrast => set_contrast self uuid level
  | LIrContrast => set_ircontrast self uuid level
  | LDenoise => set_denoise self uuid level
  | LIrDenoise => set_irdenoise self uuid level
  | LHue => set_hue self uuid level
  | LIrHue => set_irhue self uuid level
  | LSaturation => set_saturation self uuid level
  | LIrSaturation => set_irsaturation self uuid level
  | LSharpness => set_sharpness self uuid level
  | LIrSharpness => set_irsharpness self uuid level
  | LWdr => set_wdr self uuid level
  end.

Definition call_level_getter {W : Wire} {N : Nvr} (s : level_setter)
    (self : UVCRemote) (uuid : string) : M pyval :=
  match s with
  | LIrBrightness => get_irbrightness self uuid
  | LContrast => get_contrast self uuid
  | LIrContrast => get_ircontrast self uuid
  | LDenoise => get_denoise self uuid
  | LIrDenoise => get_irdenoise self uuid
  | LHue => get_hue self uuid
  | LIrHue => get_irhue self uuid
  | LSaturation => get_saturation self uuid
  | LIrSaturation => get_irsaturation self uuid
  | LSharpness => get_sharpness self uuid
  | LIrSharpness => get_irsharpness self uuid
  | LWdr => get_wdr self uuid
  end.

Definition level_field (s : level_setter) : string :=
  match s with
  | LIrBrightness => "irOnValBrightness"
  | LContrast => "contrast"
  | LIrContrast => "irOnValContrast"
  | LDenoise => "denoise"
  | LIrDenoise => "irOnValDenoise"
  | LHue => "hue"
  | LIrHue => "irOnValHue"
  | LSaturation => "saturation"
  | LIrSaturation => "irOnValSaturation"
  | LSharpness => "sharpness"
  | LIrSharpness => "irOnValSharpness"
  | LWdr => "wdr"
  end.

(** The request [get_snapshot] sends, and the one [test_login] sends. *)
Definition snapshot_request {W : Wire} (self : UVCRemote) (uuid : string) : request :=
  {| rq_method := "GET";
     rq_url := "/api/2.0/snapshot/camera/" ++ uuid ++ "?force=true&apiKey="
               ++ _apikey self;
     rq_body := None; rq_headers := [] |}.

Definition login_request {W : Wire} (username password : pyval) : request :=
  {| rq_method := "POST"; rq_url := "/api/2.0/login";
     rq_body := Some (json_dumps (PyDict [("username", username);
                                          ("password", password)]));
     rq_headers := [("Content-Type", "application/json")] |}.

(** The index, camera by camera: the field [k] of a camera ([None] when
    missing), the cameras [index] keeps, the entry it makes of one, and the
    cameras it can read: the [deleted] flag is needed of all, the five fields
    of the entry only of those that are kept. *)
Definition field (x : pyval) (k : string) : pyval :=
  match getitem x k with
  | Ok v => v
  | Raise _ => PyNone
  end.

Definition is_live (x : pyval) : bool :=
  match getitem x "deleted" with
  | Ok deleted => negb (py_truthy deleted)
  | Raise _ => false
  end.

Definition entry_of (x : pyval) : pyval :=
  PyDict [("name", field x "name"); ("uuid", field x "uuid");
          ("state", field x "state"); ("managed", field x "managed");
          ("id", field x "_id")].

Definition listable (x : pyval) : Prop :=
  exists d deleted,
    x = PyDict d /\ dict_get "deleted" d = Some deleted /\
    (py_truthy deleted = false ->
     forall k, In k ["name"; "uuid"; "state"; "managed"; "_id"] ->
               dict_get k d <> None).

(** The last kept camera called [name]. *)
Definition last_named (name : string) (cams : list pyval) : option pyval :=
  find (fun x => py_eq (field x "name") (PyStr name)) (rev (filter is_live cams)).

(** The assignments an enum or boolean setter makes for the lower-cased
    value [l] of its vocabulary, in order. *)
Definition setter_writes (s : enum_setter) (l : string) : list (string * pyval) :=
  match s with
  | SEnableStatusLed => [("enableStatusLed", PyBool (String.eqb l "true"))]
  | SEnableSuggestedVideoSettings =>
      [("enableSuggestedVideoSettings", PyBool (String.eqb l "true"))]
  | SExternalIrMode => [("enableExternalIr", PyInt (if String.eqb l "off" then 0 else 1))]
  | SShowOsdDateMode => [("enableDate", PyInt (if String.eqb l "off" then 0 else 1))]
  | SShowOsdLogoMode => [("enableLogo", PyInt (if String.eqb l "off" then 0 else 1))]
  | SLensDistortionCorrectionMode =>
      [("lensDistortionCorrection", PyInt (if String.eqb l "off" then 0 else 1))]
  | SAeMode =>
      [("aemode", PyStr (if String.eqb l "normal" then "auto"
                         else if String.eqb l "antiflicker50hz" then "flick50"
                         else "flick60"))]
  | SAggressiveAntiFlicker =>
      [("aggressiveAntiFlicker", PyInt (if String.eqb l "disabled" then 0 else 1))]
  | SIrSensitivity =>
      [("icrSensitivity", PyInt (if String.eqb l "low" then 0
                                 else if String.eqb l "medium" then 1 else 2))]
  | SIrLedMode =>
      [("irLedLevel", PyInt (if String.eqb l "off" then 0 else 215));
       ("irLedMode", PyStr (if String.eqb l "auto" then "auto" else "manual"))]
  | SRecordMode chan =>
      [("fullTimeRecordEnabled", PyBool (String.eqb l "full"));
       ("motionRecordEnabled", PyBool (String.eqb l "motion"))]
      ++ match chan with
         | Some c =>
             if String.eqb c "" then []
             else match list_index c CHANNEL_NAMES with
                  | Ok i => [("channel", PyInt i)]
                  | Raise _ => []
                  end
         | None => []
         end
  end.

Definition apply_writes (ws : list (string * pyval)) (d : list (string * pyval))
    : list (string * pyval) :=
  fold_left (fun d kv => dict_set (fst kv) (snd kv) d) ws d.

(** The camera a valid call leaves: the writes applied to the setter's
    group, or to the camera itself for the two setters without a group. *)
Definition camera_after (s : enum_setter) (l : string) (cam : list (string * pyval))
    : option (list (string * pyval)) :=
  match setter_group s with
  | None => Some (apply_writes (setter_writes s l) cam)
  | Some g =>
      match dict_get g cam with
      | Some (PyDict grp) =>
          Some (dict_set g (PyDict (apply_writes (setter_writes s l) grp)) cam)
      | _ => None
      end
  end.

(** The channel of a [SRecordMode] setter; no constraint on the others. *)
Definition setter_channel_ok (s : enum_setter) : Prop :=
  match s with
  | SRecordMode chan => valid_channel chan
  | _ => True
  end.

(** The branches of [main] that need a camera, with their other options. *)
Inductive uuid_branch :=
| BRecordMode (recordmode : string) (recordchannel : option string)
| BExternalIrMode (externalirmode : string)
| BIrSensitivity (irsensitivity : string)
| BIrLedMode (irledmode : string)
| BGetRecordMode
| BGetExternalIrMode
| BGetIrSensitivity
| BGetIrLedMode.

Definition run_branch {W : Wire} {N : Nvr} (b : uuid_branch) (client : UVCRemote)
    (uuid : option string) : M pyval :=
  match b with
  | BRecordMode m c => main_recordmode client uuid m c
  | BExternalIrMode m => main_externalirmode client uuid m
  | BIrSensitivity m => main_irsensitivity client uuid m
  | BIrLedMode m => main_irledmode client uuid m
  | BGetRecordMode => main_get_recordmode client uuid
  | BGetExternalIrMode => main_get_externalirmode client uuid
  | BGetIrSensitivity => main_get_irsensitivity client uuid
  | BGetIrLedMode => main_get_irledmode client uuid
  end.

(** ** Fixtures: a wire and some NVRs to run the client against *)

(** A payload that is JSON text, a gzip stream or neither. *)
Inductive payload :=
| Plain (v : pyval)
| Deflated (p : payload)
| Garbage.

Definition plain_wire (p : python) : Wire := {|
  py := p;
  bytes := payload;
  json_dumps := Plain;
  json_loads := fun b => match b with Plain v => Some v | _ => None end;
  zlib_decompress := fun b => match b with Deflated b' => Some b' | _ => None end
|}.

(** [{"data": [cam]}], the form of the NVR's answers. *)
Definition envelope (cam : pyval) : pyval := PyDict [("data", PyList [cam])].

Definition ok_response {W : Wire} (body : bytes) : response :=
  {| status := 200; reason := "OK"; getheaders := []; read := body |}.

Definition bad_request {W : Wire} : response :=
  {| status := 400; reason := "Bad Request"; getheaders := [];
     read := json_dumps PyNone |}.

(** An NVR with one camera that stores exactly the resource that is PUT and
    answers every request with the stored resource. *)
Definition storing_nvr (W : Wire) : Nvr := {|
  server := pyval;
  handle := fun cam _ rq =>
    if String.eqb (rq_method rq) "PUT" then
      match rq_body rq with
      | Some body =>
          match json_loads body with
          | Some cam' => (cam', Responded (ok_response (json_dumps (envelope cam'))))
          | None => (cam, Responded bad_request)
          end
      | None => (cam, Responded bad_request)
      end
    else (cam, Responded (ok_response (json_dumps (envelope cam))))
|}.

(** An NVR that gives the same answer to every request. *)
Definition constant_nvr {W : Wire} (out : outcome) : Nvr := {|
  server := unit;
  handle := fun s _ _ => (s, out)
|}.

(** An alert table on which a delete is acknowledged and has no effect. *)
Definition alert_table {W : Wire} : Nvr := {|
  server := list pyval;
  handle := fun s _ _ => (s, Failed OSError)
|}.

Definition stuck_alerts {W : Wire} : @AlertMethods W alert_table := {|
  get_all_alerts := fun _ (w : @world W alert_table) => (Ok (PyList (nvr w)), w);
  delete_alert := fun _ alert (w : @world W alert_table) => (Ok (envelope alert), w)
|}.

(** A 201 answer, and a 200 answer with a gzip body. *)
Definition created : @response (plain_wire Py3) :=
  @Build_response (plain_wire Py3) 201 "Created" [] (Plain (envelope PyNone)).

Definition gzipped_body (cam : pyval) : @response (plain_wire Py3) :=
  @Build_response (plain_wire Py3) 200 "OK" [("Content-Encoding", "gzip")]
    (Deflated (Plain (envelope cam))).

Definition a_client : UVCRemote :=
  {| _host := "nvr.local"; _port := 7080; _path := "/"; _ssl := false;
     _apikey := "KEY"; _bootstrap := PyNone |}.

Definition client_at (version : string) : UVCRemote :=
  {| _host := "nvr.local"; _port := 7080; _path := "/"; _ssl := false;
     _apikey := "KEY";
     _bootstrap := PyDict [("systemInfo", PyDict [("version", PyStr version)])] |}.

Definition a_camera : pyval :=
  PyDict [("name", PyStr "Porch");
          ("enableStatusLed", PyBool false);
          ("ispSettings", PyDict [("brightness", PyInt 50);
                                  ("icrSensitivity", PyInt 1);
                                  ("irLedMode", PyStr "manual");
                                  ("irLedLevel", PyNone)]);
          ("recordingSettings", PyDict [("fullTimeRecordEnabled", PyBool false);
                                        ("motionRecordEnabled", PyBool true);
                                        ("channel", PyInt 0)])].

Definition camera_entry (name uuid id : string) : pyval :=
  PyDict [("name", PyStr name); ("uuid", PyStr uuid); ("state", PyStr "CONNECTED");
          ("managed", PyBool true); ("_id", PyStr id); ("deleted", PyBool false)].

(** Two cameras called Porch, as the NVR lists them. *)
Definition two_porches : pyval :=
  PyDict [("data", PyList [camera_entry "Porch" "uuid-1" "id-1";
                           camera_entry "Porch" "uuid-2" "id-2"])].

Definition an_alert (id : string) : pyval :=
  PyDict [("_id", PyStr id); ("timestamp", PyInt 1446336000);
          ("alertType", PyStr "MOTION"); ("alertState", PyStr "new")].

Definition gzipped : @response (plain_wire Py3) := gzipped_body a_camera.

Definition start {W : Wire} {N : Nvr} (s : server) : world :=
  {| nvr := s; trace := [] |}.

(** The storing NVR holding the camera [cam], before any traffic. *)
Definition camera_world (W : Wire) (cam : pyval) : @world W (storing_nvr W) :=
  @Build_world W (storing_nvr W) cam [].

(** More answers and cameras to run the client against. *)
Definition answer (p : python) (st : Z) (text : string)
    (hs : list (string * string)) (body : payload) : @response (plain_wire p) :=
  @Build_response (plain_wire p) st text hs body.

Definition answering (p : python) (st : Z) (text : string)
    (hs : list (string * string)) (body : payload) : @Nvr (plain_wire p) :=
  @constant_nvr (plain_wire p) (Responded (answer p st text hs body)).

Definition before (p : python) (st : Z) (text : string)
    (hs : list (string * string)) (body : payload)
    : @world (plain_wire p) (answering p st text hs body) :=
  @Build_world (plain_wire p) (answering p st text hs body) tt [].

Definition a_bootstrap : pyval :=
  envelope (PyDict [("systemInfo", PyDict [("version", PyStr "3.9.0")])]).

Definition three_cameras : list pyval :=
  [camera_entry "Porch" "uuid-1" "id-1";
   PyDict [("name", PyStr "Porch"); ("deleted", PyBool true)];
   camera_entry "Garage" "uuid-3" "id-3"].

Definition a_zoned_camera : pyval :=
  PyDict [("name", PyStr "Porch");
          ("zones", PyList [PyDict [("name", PyStr "Door")];
                            PyDict [("name", PyStr "Lawn")]]);
          ("osdSettings", PyDict [("enableDate", PyInt 1); ("enableLogo", PyInt 1)]);
          ("ispSettings", PyDict [("enableExternalIr", PyInt 0);
                                  ("lensDistortionCorrection", PyInt 0);
                                  ("aemode", PyStr "auto");
                                  ("aggressiveAntiFlicker", PyInt 0)])].

Definition a_zoneless_camera : pyval :=
  PyDict [("name", PyStr "Attic"); ("zones", PyList [])].

(** * Properties *)

(** ** Strings and dictionaries *)

Example split_version : split_on "." "3.10.beta" = ["3"; "10"; "beta"].
Proof. reflexivity. Qed.

Example int_examples :
  int_of_string Py3 " 12 " = Some 12 /\ int_of_string Py3 "1_0" = Some 10 /\
  int_of_string Py2 "1_0" = None /\ int_of_string Py3 "-7" = Some (-7) /\
  int_of_string Py3 "beta" = None /\ int_of_string Py3 "" = None /\
  str_of_Z 201 = "201" /\ str_of_Z 0 = "0" /\ lower "LoW" = "low".
Proof. repeat split; reflexivity. Qed.

Lemma dict_get_set {A} (k k' : string) (v : A) (d : list (string * A)) :
  dict_get k (dict_set k' v d) = if String.eqb k k' then Some v else dict_get k d.
Proof.
  induction d as [|[k0 v0] d IH]; simpl.
  - destruct (String.eqb k k'); reflexivity.
  - destruct (String.eqb k' k0) eqn:E0; simpl.
    + apply String.eqb_eq in E0; subst k0.
      destruct (String.eqb k k'); reflexivity.
    + rewrite IH. destruct (String.eqb k k') eqn:E1; [|reflexivity].
      apply String.eqb_eq in E1; subst k'. rewrite E0. reflexivity.
Qed.

Lemma dict_get_set_same {A} (k : string) (v : A) (d : list (string * A)) :
  dict_get k (dict_set k v d) = Some v.
Proof. rewrite dict_get_set, String.eqb_refl. reflexivity. Qed.

(** The value the last pair for [k] carries. *)
Fixpoint last_value {A} (k : string) (pairs : list (string * A)) : option A :=
  match pairs with
  | [] => None
  | (k', v) :: pairs' =>
      match last_value k pairs' with
      | Some x => Some x
      | None => if String.eqb k k' then Some v else None
      end
  end.

Lemma dict_get_fold {A} (k : string) (pairs acc : list (string * A)) :
  dict_get k (fold_left (fun d kv => dict_set (fst kv) (snd kv) d) pairs acc) =
  match last_value k pairs with
  | Some v => Some v
  | None => dict_get k acc
  end.
Proof.
  revert acc. induction pairs as [|[k' v] pairs IH]; intros acc; simpl.
  - reflexivity.
  - rewrite IH. destruct (last_value k pairs); [reflexivity|].
    rewrite dict_get_set. destruct (String.eqb k k'); reflexivity.
Qed.

Lemma dict_of_pairs_get {A} (k : string) (pairs : list (string * A)) :
  dict_get k (dict_of_pairs pairs) = last_value k pairs.
Proof.
  unfold dict_of_pairs. rewrite dict_get_fold.
  destruct (last_value k pairs); reflexivity.
Qed.

Lemma last_value_absent {A} (k : string) (pairs : list (string * A)) :
  ~ In k (map fst pairs) -> last_value k pairs = None.
Proof.
  induction pairs as [|[k' v] pairs IH]; simpl; intros H; [reflexivity|].
  rewrite IH by tauto.
  destruct (String.eqb k k') eqn:E; [|reflexivity].
  apply String.eqb_eq in E. subst. tauto.
Qed.

Lemma last_value_in {A} (k : string) (y : A) (pairs : list (string * A)) :
  last_value k pairs = Some y -> In (k, y) pairs.
Proof.
  induction pairs as [|[k' v] pairs IH]; simpl; [discriminate|].
  destruct (last_value k pairs) as [z|].
  - intros E. inversion E; subst. auto.
  - destruct (String.eqb k k') eqn:Ek; [|discriminate].
    apply String.eqb_eq in Ek. intros E. inversion E; subst. auto.
Qed.

Lemma last_value_present {A} (k : string) (x : A) (pairs : list (string * A)) :
  In (k, x) pairs -> last_value k pairs <> None.
Proof.
  induction pairs as [|[k' v] pairs IH]; simpl; [tauto|].
  intros [Hin|Hin].
  - inversion Hin; subst. rewrite String.eqb_refl.
    destruct (last_value k pairs); discriminate.
  - specialize (IH Hin). destruct (last_value k pairs); [discriminate|tauto].
Qed.

Lemma last_value_all {A} (k : string) (x : A) (pairs : list (string * A)) :
  In (k, x) pairs -> (forall v, In (k, v) pairs -> v = x) ->
  last_value k pairs = Some x.
Proof.
  intros Hin Hall.
  destruct (last_value k pairs) as [y|] eqn:E.
  - f_equal. apply Hall. apply last_value_in. exact E.
  - exfalso. exact (last_value_present k x pairs Hin E).
Qed.

(** ** The request helper *)

Section RequestHelper.

Context {W : Wire} {N : Nvr}.

Lemma status_200_accepted : status_div_100_ne_2 200 = false.
Proof. unfold status_div_100_ne_2. destruct py; reflexivity. Qed.

(** Python 3's true division makes 200 the only status with
    [status / 100 == 2]. *)
Lemma py3_division_accepts_only_200 (st : Z) :
  py = Py3 -> st <> 200 -> status_div_100_ne_2 st = true.
Proof.
  intros Hpy Hst. unfold status_div_100_ne_2. rewrite Hpy.
  apply negb_true_iff. apply not_true_is_false. intros H.
  apply Qeq_bool_iff in H. unfold Qeq, Qdiv, Qmult, Qinv, inject_Z in H.
  simpl in H. lia.
Qed.

(** Python 2's floor division accepts the whole class 200-299. *)
Lemma py2_division_accepts_2xx (st : Z) :
  py = Py2 -> 200 <= st <= 299 -> status_div_100_ne_2 st = false.
Proof.
  intros Hpy Hst. unfold status_div_100_ne_2. rewrite Hpy.
  apply negb_false_iff. apply Z.eqb_eq.
  symmetry. apply (Z.div_unique st 100 2 (st - 200)); lia.
Qed.

Lemma http_run (ep : endpoint) (rq : request) (w : world) s' out :
  handle (nvr w) ep rq = (s', out) ->
  http ep rq w =
  (match out with Responded resp => Ok resp | Failed e => Raise e end,
   {| nvr := s'; trace := trace w ++ [Sent ep rq] |}).
Proof. intros H. unfold http. rewrite H. destruct out; reflexivity. Qed.

Lemma py2_division_refuses_others (st : Z) :
  py = Py2 -> st < 200 \/ 299 < st -> status_div_100_ne_2 st = true.
Proof.
  intros Hpy Hst. unfold status_div_100_ne_2. rewrite Hpy.
  apply negb_true_iff. apply Z.eqb_neq. intros H.
  pose proof (Z.div_mod st 100 ltac:(lia)) as Hdm.
  pose proof (Z.mod_pos_bound st 100 ltac:(lia)) as Hb.
  rewrite H in Hdm. lia.
Qed.

(** C1.  Under Python 3 the status check of [_uvc_request_safe] rejects
    every 2xx status other than 200 (201, 204, ...): the call raises
    [NvrError] with the status instead of going on to the body. *)
Theorem uvc_request_safe_py3_rejects_2xx
    (self : UVCRemote) (path method : string) (data : option bytes)
    (mimetype : string) (w : world) (s' : server) (resp : response) :
  py = Py3 ->
  200 < status resp <= 299 ->
  (forall ep rq, handle (nvr w) ep rq = (s', Responded resp)) ->
  fst (_uvc_request_safe self path method data mimetype w) =
  Raise (NvrError ("Request failed: " ++ str_of_Z (status resp))).
Proof.
  intros Hpy Hst Hans. unfold _uvc_request_safe, bind.
  rewrite (http_run _ _ _ _ _ (Hans _ _)).
  replace ((status resp =? 401) || (status resp =? 403)) with false
    by (symmetry; apply orb_false_iff; split; apply Z.eqb_neq; lia).
  rewrite py3_division_accepts_only_200 by (auto; lia).
  reflexivity.
Qed.

Ltac split_ifs :=
  repeat match goal with
         | |- context [if ?c then _ else _] => destruct c eqn:?
         | |- context [match ?x with Some _ => _ | None => _ end] => destruct x eqn:?
         end.

(** Every call of the helper sends exactly one request, whatever comes
    back, and leaves the NVR in the state the request put it in. *)
Lemma uvc_request_safe_world (self : UVCRemote) (path method : string)
    (data : option bytes) (mimetype : string) (w : world) :
  snd (_uvc_request_safe self path method data mimetype w) =
  {| nvr := fst (handle (nvr w) (_get_http_connection self)
                        (request_sent self path method data mimetype));
     trace := trace w ++ [Sent (_get_http_connection self)
                               (request_sent self path method data mimetype)] |}.
Proof.
  unfold _uvc_request_safe, bind, http, request_sent, url_with_key.
  destruct (handle _ _ _) as [s' [resp|e]]; simpl; [|reflexivity].
  unfold raise, ret. split_ifs; reflexivity.
Qed.

Lemma uvc_request_world (self : UVCRemote) (path method : string)
    (data : option bytes) (w : world) :
  snd (_uvc_request self path method data w) =
  {| nvr := fst (handle (nvr w) (_get_http_connection self)
                        (request_sent self path method data "application/json"));
     trace := trace w ++ [Sent (_get_http_connection self)
                               (request_sent self path method data "application/json")] |}.
Proof.
  unfold _uvc_request, try_except.
  pose proof (uvc_request_safe_world self path method data "application/json" w) as H.
  destruct (_uvc_request_safe self path method data "application/json" w) as [[v|e] w'];
    simpl in *; [exact H|].
  destruct e; simpl; exact H.
Qed.

(** The helper on an answered request: the status check, then the body. *)
Lemma uvc_request_safe_answered (self : UVCRemote) (path method : string)
    (data : option bytes) (mimetype : string) (w : world) s' resp :
  handle (nvr w) (_get_http_connection self)
         (request_sent self path method data mimetype) = (s', Responded resp) ->
  fst (_uvc_request_safe self path method data mimetype w) =
  if (status resp =? 401) || (status resp =? 403) then
    Raise (NotAuthorized "NVR reported authorization failure")
  else if status_div_100_ne_2 (status resp) then
    Raise (NvrError ("Request failed: " ++ str_of_Z (status resp)))
  else if header_is (getheaders resp) "content-encoding" "gzip"
          || header_is (getheaders resp) "Content-Encoding" "gzip" then
    match zlib_decompress (read resp) with
    | Some d => parsed d
    | None => Raise ZlibError
    end
  else parsed (read resp).
Proof.
  intros H. unfold _uvc_request_safe, bind.
  fold (url_with_key self path). fold (request_sent self path method data mimetype).
  rewrite (http_run _ _ _ _ _ H). unfold parsed, raise, ret.
  split_ifs; reflexivity.
Qed.

(** X2.  An answer with status 401 or 403 makes [_uvc_request_safe] raise
    [NotAuthorized], under either interpreter, whatever its headers and
    body. *)
Lemma uvc_request_safe_refuses_401_403 (self : UVCRemote) (path method : string)
    (data : option bytes) (mimetype : string) (w : world) s' resp :
  handle (nvr w) (_get_http_connection self)
         (request_sent self path method data mimetype) = (s', Responded resp) ->
  status resp = 401 \/ status resp = 403 ->
  fst (_uvc_request_safe self path method data mimetype w) =
  Raise (NotAuthorized "NVR reported authorization failure").
Proof.
  intros Hans Hst. rewrite (uvc_request_safe_answered _ _ _ _ _ _ _ _ Hans).
  destruct Hst as [-> | ->]; reflexivity.
Qed.

(** X3.  An answer with a status outside 200-299, other than 401 and 403,
    makes [_uvc_request_safe] raise [NvrError] with the status in its
    message, under either interpreter. *)
Lemma uvc_request_safe_refuses_non_2xx (self : UVCRemote) (path method : string)
    (data : option bytes) (mimetype : string) (w : world) s' resp :
  handle (nvr w) (_get_http_connection self)
         (request_sent self path method data mimetype) = (s', Responded resp) ->
  status resp < 200 \/ 299 < status resp ->
  status resp <> 401 -> status resp <> 403 ->
  fst (_uvc_request_safe self path method data mimetype w) =
  Raise (NvrError ("Request failed: " ++ str_of_Z (status resp))).
Proof.
  intros Hans Hst H401 H403. rewrite (uvc_request_safe_answered _ _ _ _ _ _ _ _ Hans).
  replace ((status resp =? 401) || (status resp =? 403)) with false
    by (symmetry; apply orb_false_iff; split; apply Z.eqb_neq; assumption).
  assert (Hne : status_div_100_ne_2 (status resp) = true).
  { destruct py eqn:Hpy.
    - apply py2_division_refuses_others; assumption.
    - apply py3_division_accepts_only_200; [assumption | lia]. }
  rewrite Hne. reflexivity.
Qed.


End RequestHelper.

(** ** The session *)

Section Session.

Context {W : Wire} {N : Nvr}.

(** C9.  With a [path] other than "/" the constructor raises [Invalid]
    and the world is untouched: no request was sent.  With "/" it sends
    exactly one request, the GET of the bootstrap, whatever the answer. *)
Theorem init_checks_path_before_bootstrap
    (host : string) (port : Z) (apikey path : string) (ssl : bool) (w : world) :
  (path <> "/" ->
   __init__ host port apikey path ssl w = (Raise (Invalid "Path not supported yet"), w)) /\
  (path = "/" ->
   trace (snd (__init__ host port apikey path ssl w)) =
   (trace w ++ [Sent {| ep_ssl := ssl; ep_host := host; ep_port := port |}
                     {| rq_method := "GET";
                        rq_url := "/api/2.0/bootstrap?apiKey=" ++ apikey;
                        rq_body := None;
                        rq_headers := request_headers "application/json" |}])%list).
Proof.
  split.
  - intros Hpath. unfold __init__.
    replace (String.eqb path "/") with false
      by (symmetry; apply String.eqb_neq; exact Hpath).
    reflexivity.
  - intros ->. unfold __init__. rewrite String.eqb_refl. cbv [negb].
    unfold _get_bootstrap, bind.
    match goal with
    | |- context [_uvc_request ?s ?p ?m ?d w] =>
        pose proof (uvc_request_world s p m d w) as Hw;
        destruct (_uvc_request s p m d w) as [[data|e] w1]
    end; simpl in Hw; subst w1; [|reflexivity].
    unfold lift, bind, ret.
    destruct (data_0 data) as [bootstrap|e]; [|reflexivity].
    destruct (server_version _); reflexivity.
Qed.

Lemma tuple_ge_3_2_0 (major minor patch : Z) :
  tuple_ge (major, minor, patch) (3, 2, 0) = true <->
  3 < major \/ (major = 3 /\ (2 < minor \/ (minor = 2 /\ 0 <= patch))).
Proof.
  unfold tuple_ge.
  rewrite orb_true_iff, andb_true_iff, orb_true_iff, andb_true_iff.
  rewrite !Z.ltb_lt, !Z.eqb_eq, Z.leb_le. reflexivity.
Qed.


End Session.



(** ** The camera index *)

(** Of two cameras with the same name, the comprehension keeps the
    identifier of the second. *)
Lemma by_name_keeps_second (ident n : string) (v1 v2 : pyval)
    (d1 d2 : list (string * pyval)) :
  dict_get "name" d1 = Some (PyStr n) -> dict_get ident d1 = Some v1 ->
  dict_get "name" d2 = Some (PyStr n) -> dict_get ident d2 = Some v2 ->
  rbind (by_name ident [PyDict d1; PyDict d2] [])
        (fun m => Ok (kv_get (PyStr n) m)) = Ok (Some v2).
Proof.
  intros Hn1 Hv1 Hn2 Hv2. simpl. rewrite Hn1, Hv1. simpl.
  rewrite Hn2, Hv2. simpl. rewrite String.eqb_refl. simpl.
  rewrite String.eqb_refl. reflexivity.
Qed.

(** C7.  With two cameras of the same name in the index, [name_to_uuid]
    returns the identifier of the second one, not of the first: the
    dictionary comprehension overwrites the entry of a repeated name. *)
Theorem name_to_uuid_returns_last_match (p : python) :
  let W := plain_wire p in
  let N := constant_nvr (Responded (ok_response (Plain two_porches))) in
  fst (index a_client (start tt)) =
    Ok [PyDict [("name", PyStr "Porch"); ("uuid", PyStr "uuid-1");
                ("state", PyStr "CONNECTED"); ("managed", PyBool true);
                ("id", PyStr "id-1")];
        PyDict [("name", PyStr "Porch"); ("uuid", PyStr "uuid-2");
                ("state", PyStr "CONNECTED"); ("managed", PyBool true);
                ("id", PyStr "id-2")]] /\
  fst (name_to_uuid (client_at "3.1.0") "Porch" (start tt)) = Ok (PyStr "uuid-2") /\
  fst (name_to_uuid (client_at "3.2.0") "Porch" (start tt)) = Ok (PyStr "id-2") /\
  fst (name_to_uuid (client_at "3.2.0") "Garage" (start tt)) = Ok PyNone.
Proof. destruct p; vm_compute; repeat split; reflexivity. Qed.

(** ** The alert branch of [main] *)

Section Alerts.

Context {W : Wire} {N : Nvr} {A : AlertMethods}.



End Alerts.


(** ** Setters and getters against an NVR that stores what is PUT *)

Section Storing.

Context {W : Wire}.

(** The codec law the storing NVR rests on: what [json.dumps] writes,
    [json.loads] reads back. *)
Hypothesis loads_dumps : forall v, json_loads (json_dumps v) = Some v.

Let N : Nvr := storing_nvr W.
Existing Instance N.

Lemma storing_get (self : UVCRemote) (path : string) (w : world) :
  _uvc_request self path "GET" None w =
  (Ok (envelope (nvr w)),
   {| nvr := nvr w;
      trace := trace w ++ [Sent (_get_http_connection self)
                                (request_sent self path "GET" None "application/json")] |}).
Proof.
  unfold _uvc_request, try_except, _uvc_request_safe, bind, http. simpl.
  rewrite status_200_accepted. unfold ret. rewrite loads_dumps. reflexivity.
Qed.

Lemma storing_put (self : UVCRemote) (path : string) (cam : pyval) (w : world) :
  _uvc_request self path "PUT" (Some (json_dumps cam)) w =
  (Ok (envelope cam),
   {| nvr := cam;
      trace := trace w ++ [Sent (_get_http_connection self)
                                (request_sent self path "PUT" (Some (json_dumps cam))
                                              "application/json")] |}).
Proof.
  unfold _uvc_request, try_except, _uvc_request_safe, bind, http. simpl.
  rewrite loads_dumps. simpl.
  rewrite status_200_accepted. unfold ret. rewrite loads_dumps. reflexivity.
Qed.

Local Opaque _uvc_request.

Ltac on_storing :=
  repeat first
    [ rewrite storing_get
    | rewrite storing_put
    | rewrite dict_get_set_same
    | rewrite dict_get_set
    | match goal with H : dict_get _ _ = Some _ |- _ => rewrite H end
    | match goal with
      | |- context [lower ?s] =>
          let r := eval vm_compute in (lower s) in change (lower s) with r
      end
    | progress unfold item_eq, item_gt_zero, py_and, py_gt_zero, getitem, rbind, ret,
        dump, emit, bind, lift
    | progress cbn ].

Lemma irsensitivity_round_trip (self : UVCRemote) (uuid v : string)
    (cam isp : list (string * pyval)) (w : world) :
  nvr w = PyDict cam ->
  dict_get "ispSettings" cam = Some (PyDict isp) ->
  In v irsensitivity_vocabulary ->
  fst ((_ <- set_irsensitivity self uuid v ;; get_irsensitivity self uuid) w) = Ok v.
Proof.
  intros Hcam Hisp Hv. destruct w as [s tr]. simpl in Hcam. subst s.
  unfold set_irsensitivity, get_irsensitivity, bind.
  simpl in Hv. destruct Hv as [<-|[<-|[<-|[]]]]; on_storing; reflexivity.
Qed.

Lemma irledmode_round_trip (self : UVCRemote) (uuid v : string)
    (cam isp : list (string * pyval)) (w : world) :
  nvr w = PyDict cam ->
  dict_get "ispSettings" cam = Some (PyDict isp) ->
  In v irledmode_vocabulary ->
  fst ((_ <- set_irledmode self uuid v ;; get_irledmode self uuid) w) = Ok v.
Proof.
  intros Hcam Hisp Hv. destruct w as [s tr]. simpl in Hcam. subst s.
  unfold set_irledmode, get_irledmode, bind.
  simpl in Hv. destruct Hv as [<-|[<-|[<-|[]]]]; on_storing; reflexivity.
Qed.

Lemma recordmode_round_trip (self : UVCRemote) (uuid v : string)
    (chan : option string) (cam rec : list (string * pyval)) (w : world) :
  nvr w = PyDict cam ->
  dict_get "recordingSettings" cam = Some (PyDict rec) ->
  valid_channel chan ->
  In v recordmode_vocabulary ->
  fst ((_ <- set_recordmode self uuid v chan ;; get_recordmode self uuid) w) = Ok v.
Proof.
  intros Hcam Hrec Hchan Hv. destruct w as [s tr]. simpl in Hcam. subst s.
  unfold set_recordmode, get_recordmode, bind.
  assert (Hc : chan = None \/ chan = Some "" \/ chan = Some "high" \/
               chan = Some "medium" \/ chan = Some "low").
  { destruct chan as [c|]; [|auto]. simpl in Hchan.
    destruct Hchan as [->|[<-|[<-|[<-|[]]]]]; auto. }
  simpl in Hv.
  destruct Hv as [<-|[<-|[<-|[]]]];
    destruct Hc as [->|[->|[->|[->| ->]]]]; on_storing; reflexivity.
Qed.

(** X23.  The four on/off pairs round-trip: external IR mode, OSD date,
    OSD logo and lens distortion correction read back as the value set. *)
Lemma on_off_round_trip (self : UVCRemote) (uuid v : string)
    (cam isp osd : list (string * pyval)) (w : world) :
  nvr w = PyDict cam ->
  dict_get "ispSettings" cam = Some (PyDict isp) ->
  dict_get "osdSettings" cam = Some (PyDict osd) ->
  In v ["off"; "on"] ->
  fst ((_ <- set_externalirmode self uuid v ;; get_externalirmode self uuid) w) = Ok v /\
  fst ((_ <- set_showosddatemode self uuid v ;; get_showosddatemode self uuid) w) = Ok v /\
  fst ((_ <- set_showosdlogomode self uuid v ;; get_showosdlogomode self uuid) w) = Ok v /\
  fst ((_ <- set_lensdistortioncorrectionmode self uuid v ;;
        get_lensdistortioncorrectionmode self uuid) w) = Ok v.
Proof.
  intros Hcam Hisp Hosd Hv. destruct w as [s tr]. simpl in Hcam. subst s.
  unfold set_externalirmode, get_externalirmode, set_showosddatemode,
    get_showosddatemode, set_showosdlogomode, get_showosdlogomode,
    set_lensdistortioncorrectionmode, get_lensdistortioncorrectionmode, bind.
  simpl in Hv. destruct Hv as [<-|[<-|[]]]; repeat split; on_storing; reflexivity.
Qed.

(** [set_aemode] and [get_aemode] name the anti-flicker modes differently:
    what is set as "antiflicker50hz" reads back as another string. *)
Lemma aemode_reads_back_renamed (self : UVCRemote) (uuid : string)
    (cam isp : list (string * pyval)) (w : world) :
  nvr w = PyDict cam ->
  dict_get "ispSettings" cam = Some (PyDict isp) ->
  fst ((_ <- set_aemode self uuid "antiflicker50hz" ;; get_aemode self uuid) w) =
  Ok "anti-flicker for 50hz light".
Proof.
  intros Hcam Hisp. destruct w as [s tr]. simpl in Hcam. subst s.
  unfold set_aemode, get_aemode, bind. on_storing. reflexivity.
Qed.


(** C2.  Against the NVR that stores what is PUT, the write of
    [set_brightness] and of [set_enablestatusled] takes effect - the NVR
    holds, and answers with, the intended group or value - and yet
    [set_brightness] returns [None] and [set_enablestatusled] returns
    [False]: neither returns whether the updated settings equal the
    intended ones. *)
Theorem setters_return_no_verdict (self : UVCRemote) (uuid : string)
    (level : pyval) (cam isp : list (string * pyval)) (w : world) :
  nvr w = PyDict cam ->
  dict_get "ispSettings" cam = Some (PyDict isp) ->
  (fst (set_brightness self uuid level w) = Ok PyNone /\
   getitem (nvr (snd (set_brightness self uuid level w))) "ispSettings" =
   Ok (PyDict (dict_set "brightness" level isp))) /\
  (fst (set_enablestatusled self uuid "true" w) = Ok (PyBool false) /\
   getitem (nvr (snd (set_enablestatusled self uuid "true" w))) "enableStatusLed" =
   Ok (PyBool true)).
Proof.
  intros Hcam Hisp. destruct w as [s tr]. simpl in Hcam. subst s.
  unfold set_brightness, set_enablestatusled, bind.
  repeat split; on_storing; reflexivity.
Qed.

End Storing.


(** The witness: brightness 80 and the status LED on the same camera. *)
Lemma setters_return_no_verdict_witness :
  fst (set_brightness (W := plain_wire Py3) (N := storing_nvr _)
         a_client "cam1" (PyInt 80) (camera_world (plain_wire Py3) a_camera)) = Ok PyNone /\
  fst (set_enablestatusled (W := plain_wire Py3) (N := storing_nvr _)
         a_client "cam1" "true" (camera_world (plain_wire Py3) a_camera)) = Ok (PyBool false).
Proof.
  destruct (setters_return_no_verdict (W := plain_wire Py3) (fun v => eq_refl)
              a_client "cam1" (PyInt 80) _ _ (camera_world (plain_wire Py3) a_camera) eq_refl eq_refl)
    as [[Hb _] [Hl _]].
  split; [exact Hb | exact Hl].
Defined.

(** ** Validation in the setters *)

Section Validation.

Context {W : Wire} {N : Nvr}.

Ltac outside H :=
  repeat match goal with
         | |- context [String.eqb ?l ?c] =>
             let E := fresh "E" in
             destruct (String.eqb l c) eqn:E;
             [ apply String.eqb_eq in E; exfalso; apply H; rewrite E; simpl; tauto | ]
         end.

Ltac unfold_setters :=
  unfold setter_fetch, call_setter, set_enablestatusled,
    set_enablesuggestedvideosettings, set_externalirmode, set_showosddatemode,
    set_showosdlogomode, set_lensdistortioncorrectionmode, set_aemode,
    set_aggressiveantiflicker, set_irsensitivity, set_irledmode, set_recordmode,
    dump, emit, bind, ret, lift, raise;
  simpl setter_group.

Lemma invalid_after_fetch (s : enum_setter) (self : UVCRemote)
    (uuid value : string) (w w1 : world) (x : pyval) :
  ~ In (lower value) (setter_vocabulary s) ->
  setter_fetch s self uuid w = (Ok x, w1) ->
  call_setter s self uuid value w = (Raise (Invalid "Unknown mode"), w1).
Proof.
  intros Hout. destruct s; simpl in Hout; unfold_setters;
    repeat match goal with
           | |- context [_uvc_request ?a ?b "GET" None ?c] =>
               destruct (_uvc_request a b "GET" None c) as [[?data|?e] ?w]; simpl
           end;
    try (intros H; discriminate H);
    repeat match goal with
           | |- context [data_0_group ?d ?g] => destruct (data_0_group d g); simpl
           end;
    try (intros H; discriminate H);
    intros H; inversion H; subst; outside Hout; reflexivity.
Qed.

Lemma invalid_sends_gets_only (s : enum_setter) (self : UVCRemote)
    (uuid value : string) (w : world) :
  ~ In (lower value) (setter_vocabulary s) ->
  exists e new,
    fst (call_setter s self uuid value w) = Raise e /\
    trace (snd (call_setter s self uuid value w)) = (trace w ++ new)%list /\
    requests_of new <> [] /\
    Forall (fun rq => rq_method rq = "GET") (requests_of new).
Proof.
  intros Hout. destruct s; simpl in Hout; unfold_setters;
    repeat match goal with
           | |- context [_uvc_request ?a ?b "GET" None ?c] =>
               let Hw := fresh "Hw" in
               pose proof (uvc_request_world a b "GET" None c) as Hw;
               destruct (_uvc_request a b "GET" None c) as [[?data|?e] ?w];
               simpl in Hw; subst; simpl
           end;
    repeat match goal with
           | |- context [data_0_group ?d ?g] => destruct (data_0_group d g); simpl
           end;
    outside Hout;
    eexists; eexists;
    (split; [reflexivity|]);
    (split; [rewrite <- ?app_assoc; reflexivity|]);
    simpl; (split; [discriminate|]);
    repeat constructor.
Qed.

(** C3 (amended).  For every enum or boolean setter and every value whose
    lower-case form is outside the setter's vocabulary: the call raises,
    the requests it sends are GETs only (at least the initial one; no PUT),
    and once the initial read has returned the camera, with the setter's
    settings group, the exception is [Invalid] and nothing is sent after
    the read. *)
Theorem invalid_value_rejected_before_put (s : enum_setter) (self : UVCRemote)
    (uuid value : string) (w : world) :
  ~ In (lower value) (setter_vocabulary s) ->
  (forall x w1, setter_fetch s self uuid w = (Ok x, w1) ->
     call_setter s self uuid value w = (Raise (Invalid "Unknown mode"), w1)) /\
  (exists e new,
     fst (call_setter s self uuid value w) = Raise e /\
     trace (snd (call_setter s self uuid value w)) = (trace w ++ new)%list /\
     requests_of new <> [] /\
     Forall (fun rq => rq_method rq = "GET") (requests_of new)).
Proof.
  intros Hout. split.
  - intros x w1 Hfetch. exact (invalid_after_fetch s self uuid value w w1 x Hout Hfetch).
  - exact (invalid_sends_gets_only s self uuid value w Hout).
Qed.

End Validation.

(** The witness: [set_irsensitivity(id, "extreme")] against the storing
    NVR. *)
Lemma invalid_value_rejected_before_put_witness :
  call_setter (W := plain_wire Py3) (N := storing_nvr _) SIrSensitivity
    a_client "cam1" "extreme" (camera_world (plain_wire Py3) a_camera) =
  (Raise (Invalid "Unknown mode"),
   snd (setter_fetch (W := plain_wire Py3) (N := storing_nvr _) SIrSensitivity
          a_client "cam1" (camera_world (plain_wire Py3) a_camera))).
Proof.
  refine (proj1 (invalid_value_rejected_before_put (W := plain_wire Py3)
                   (N := storing_nvr _) SIrSensitivity a_client "cam1" "extreme"
                   (camera_world (plain_wire Py3) a_camera) _) _ _ _).
  - vm_compute. intuition discriminate.
  - vm_compute. reflexivity.
Defined.

(** C3, as stated, fails: [set_irsensitivity(id, "extreme")] raises
    [Invalid] only after it has sent the GET of the camera, so the number of
    requests is one, not zero. *)
Lemma invalid_irsensitivity_sends_one_request :
  fst (set_irsensitivity (W := plain_wire Py3) (N := storing_nvr _)
         a_client "cam1" "extreme" (camera_world (plain_wire Py3) a_camera)) =
    Raise (Invalid "Unknown mode") /\
  map rq_method
    (requests_of
       (trace (snd (set_irsensitivity (W := plain_wire Py3) (N := storing_nvr _)
                      a_client "cam1" "extreme"
                      (camera_world (plain_wire Py3) a_camera))))) = ["GET"].
Proof. split; vm_compute; reflexivity. Qed.

(** ** Decoding in the getters *)

Section Decoding.

Context {W : Wire} {N : Nvr}.

Ltac unfold_getters :=
  unfold call_getter, get_externalirmode, get_showosddatemode, get_showosdlogomode,
    get_lensdistortioncorrectionmode, get_aemode, get_aggressiveantiflicker,
    get_orientation, get_irsensitivity, get_irledmode, bind;
  simpl getter_group.

Ltac read_raws H :=
  simpl in H;
  repeat match type of H with
         | context [dict_get ?f ?cs] =>
             let E := fresh "Hraw" in
             destruct (dict_get f cs) eqn:E; [|discriminate H]
         end;
  inversion H; subst; clear H.

Lemma py_gt_zero_raises (x : pyval) (e : exn) :
  py_gt_zero py x = Raise e -> py = Py3 /\ py_num x = None.
Proof.
  unfold py_gt_zero. destruct (py_num x); [discriminate|].
  destruct py; [discriminate|]. auto.
Qed.

Ltac decide_reading Hcmp :=
  repeat first
    [ match goal with
      | |- context [py_eq ?a ?b] => destruct (py_eq a b) eqn:?; cbn [andb orb]
      end
    | match goal with
      | |- context [py_gt_zero py ?x] =>
          let E := fresh "Egt" in
          destruct (py_gt_zero py x) as [[|]|?e] eqn:E; cbn [andb orb];
          [ | | apply py_gt_zero_raises in E; destruct E;
                simpl in Hcmp; exfalso; intuition congruence ]
      end ].


End Decoding.



(** The witness of C1: status 201 under Python 3. *)
Lemma uvc_request_safe_py3_rejects_2xx_witness :
  fst (_uvc_request_safe (W := plain_wire Py3)
         (N := constant_nvr (Responded created)) a_client
         "/api/2.0/camera/cam1" "PUT" (Some (Plain a_camera)) "application/json"
         (@start (plain_wire Py3) (constant_nvr (Responded created)) tt)) =
  Raise (NvrError "Request failed: 201").
Proof.
  refine (uvc_request_safe_py3_rejects_2xx (W := plain_wire Py3)
            (N := constant_nvr (Responded created)) a_client
            "/api/2.0/camera/cam1" "PUT" (Some (Plain a_camera)) "application/json"
            (@start (plain_wire Py3) (constant_nvr (Responded created)) tt)
            tt created eq_refl _ (fun _ _ => eq_refl)).
  vm_compute. split; [reflexivity | discriminate].
Defined.


(** * Further properties of the client *)

Ltac case_ifs :=
  repeat match goal with
         | |- context [if ?c then _ else _] => destruct c eqn:?
         | |- context [match ?x with Some _ => _ | None => _ end] => destruct x eqn:?
         end.

(** ** Transport errors *)

Section Transport.

Context {W : Wire} {N : Nvr}.

(** X1.  [_uvc_request] never lets a socket error or an [HTTPException]
    through: a failed exchange surfaces as [NvrError] for these two, and as
    the exception itself for anything else. *)
Theorem uvc_request_wraps_transport_errors (self : UVCRemote)
    (path method : string) (data : option bytes) (w : world) :
  fst (_uvc_request self path method data w) <> Raise OSError /\
  (forall msg, fst (_uvc_request self path method data w) <> Raise (HTTPException msg)) /\
  (forall s' e,
     handle (nvr w) (_get_http_connection self)
            (request_sent self path method data "application/json") = (s', Failed e) ->
     fst (_uvc_request self path method data w) =
     Raise (match e with
            | OSError => NvrError "Failed to contact NVR"
            | HTTPException msg => NvrError ("Error connecting to camera: " ++ msg)
            | _ => e
            end)).
Proof.
  unfold _uvc_request, try_except, _uvc_request_safe, bind.
  fold (url_with_key self path).
  fold (request_sent self path method data "application/json").
  unfold http.
  destruct (handle _ _ _) as [s1 [resp|e]].
  - unfold raise, ret. split; [|split].
    + case_ifs; simpl; discriminate.
    + intros msg. case_ifs; simpl; discriminate.
    + intros s' e' H. discriminate H.
  - split; [|split].
    + destruct e; simpl; discriminate.
    + intros msg. destruct e; simpl; discriminate.
    + intros s' e' H. inversion H; subst e'. destruct e; reflexivity.
Qed.

(** The request [get_snapshot] sends. *)
Lemma get_snapshot_answered (self : UVCRemote) (uuid : string) (w : world) s' out :
  handle (nvr w) (_get_http_connection self) (snapshot_request self uuid) = (s', out) ->
  get_snapshot self uuid w =
  (match out with
   | Responded resp =>
       if status resp =? 200 then Ok (read resp)
       else Raise (NvrError ("Snapshot returned " ++ str_of_Z (status resp)))
   | Failed OSError => Raise (CameraConnectionError "Unable to contact camera")
   | Failed (HTTPException msg) =>
       Raise (CameraConnectionError ("Error connecting to camera: " ++ msg))
   | Failed e => Raise e
   end,
   {| nvr := s';
      trace := (trace w ++ [Printed (rq_url (snapshot_request self uuid))])
               ++ [Sent (_get_http_connection self) (snapshot_request self uuid)] |}).
Proof.
  intros H. unfold get_snapshot, bind, emit, _safe_request, try_except, http.
  unfold snapshot_request in *. simpl nvr. simpl trace. rewrite H.
  destruct out as [resp|e].
  - destruct (status resp =? 200); reflexivity.
  - destruct e; reflexivity.
Qed.

(** X6.  [get_snapshot] returns the body for status 200 and for no other
    status: 201, 204 or 401 raise [NvrError] with the status (never
    [NotAuthorized]), and the body is returned as read, without
    decompression or parsing. *)
Theorem get_snapshot_accepts_only_200 (self : UVCRemote) (uuid : string)
    (w : world) (s' : server) (resp : response) :
  handle (nvr w) (_get_http_connection self) (snapshot_request self uuid)
    = (s', Responded resp) ->
  (status resp = 200 -> fst (get_snapshot self uuid w) = Ok (read resp)) /\
  (status resp <> 200 ->
   fst (get_snapshot self uuid w) =
   Raise (NvrError ("Snapshot returned " ++ str_of_Z (status resp)))).
Proof.
  intros H. rewrite (get_snapshot_answered self uuid w s' _ H). simpl. split.
  - intros ->. reflexivity.
  - intros Hne. apply Z.eqb_neq in Hne. rewrite Hne. reflexivity.
Qed.

(** X7.  [get_snapshot] prints its URL, key included, and then sends one
    GET of that URL without body or headers, whatever comes back; a socket
    error surfaces as [CameraConnectionError], not as [NvrError]. *)
Theorem get_snapshot_prints_then_gets (self : UVCRemote) (uuid : string) (w : world) :
  trace (snd (get_snapshot self uuid w)) =
  (trace w ++
   [Printed ("/api/2.0/snapshot/camera/" ++ uuid ++ "?force=true&apiKey=" ++ _apikey self);
    Sent (_get_http_connection self)
         {| rq_method := "GET";
            rq_url := "/api/2.0/snapshot/camera/" ++ uuid ++ "?force=true&apiKey="
                      ++ _apikey self;
            rq_body := None; rq_headers := [] |}])%list /\
  (forall s',
     handle (nvr w) (_get_http_connection self) (snapshot_request self uuid)
       = (s', Failed OSError) ->
     fst (get_snapshot self uuid w) =
     Raise (CameraConnectionError "Unable to contact camera")).
Proof.
  split.
  - destruct (handle (nvr w) (_get_http_connection self) (snapshot_request self uuid))
      as [s' out] eqn:H.
    rewrite (get_snapshot_answered self uuid w s' out H). simpl.
    rewrite <- app_assoc. reflexivity.
  - intros s' H. rewrite (get_snapshot_answered self uuid w s' _ H). reflexivity.
Qed.

End Transport.

(** ** The login test *)

Section Login.

Context {W : Wire} {N : Nvr}.

(** [test_login] hands back whatever response the NVR gives, without
    raising on its status.  The request is one POST of /api/2.0/login,
    without the API key, whose body is the JSON object of the two
    credentials. *)
Lemma test_login_answered (self : UVCRemote)
    (username password : pyval) (w : world) (s' : server) (resp : response) :
  handle (nvr w) (_get_http_connection self) (login_request username password)
    = (s', Responded resp) ->
  test_login self username password w =
  (Ok resp,
   {| nvr := s';
      trace := trace w ++ [Sent (_get_http_connection self)
                                {| rq_method := "POST"; rq_url := "/api/2.0/login";
                                   rq_body := Some (json_dumps
                                     (PyDict [("username", username);
                                              ("password", password)]));
                                   rq_headers := [("Content-Type", "application/json")] |}]
   |}).
Proof.
  intros H. unfold test_login, bind, _safe_request, try_except, http.
  unfold login_request in H. rewrite H. reflexivity.
Qed.

(** X8.  The [--test-login] branch exits with 0 exactly when the status is
    200; any other status, 401 and 403 included, is printed with its reason
    and gives exit code 1 instead of raising.  The one request is the POST
    of /api/2.0/login, without the API key. *)
Theorem main_test_login_exit_code (client : UVCRemote)
    (username password : pyval) (w : world) (s' : server) (resp : response) :
  handle (nvr w) (_get_http_connection client) (login_request username password)
    = (s', Responded resp) ->
  exists code line,
    main_test_login client username password w =
    (Ok code,
     {| nvr := s';
        trace := (trace w ++ [Sent (_get_http_connection client)
                                   (login_request username password)])
                 ++ [Printed line] |}) /\
    (code = 0 <-> status resp = 200) /\
    (code = 0 \/ code = 1) /\
    (status resp = 200 -> line = "login successful") /\
    (status resp <> 200 ->
     line = "login failed status=" ++ str_of_Z (status resp) ++ " error=" ++ reason resp).
Proof.
  intros H. unfold main_test_login, bind at 1.
  rewrite (test_login_answered client username password w s' resp H).
  unfold print, emit, bind, ret. simpl.
  destruct (status resp =? 200) eqn:E.
  - apply Z.eqb_eq in E. eexists; eexists. split; [reflexivity|].
    repeat split; auto; intros; congruence.
  - apply Z.eqb_neq in E. eexists; eexists. split; [reflexivity|].
    repeat split; auto; intros; try congruence; try discriminate.
Qed.

End Login.

(** ** The session, further *)

Section SessionMore.

Context {W : Wire} {N : Nvr}.


(** What the constructor leaves behind when it returns. *)
Lemma init_returns (host : string) (port : Z) (apikey path : string) (ssl : bool)
    (w w' : world) (self : UVCRemote) :
  __init__ host port apikey path ssl w = (Ok self, w') ->
  path = "/" /\
  _get_bootstrap {| _host := host; _port := port; _path := path; _ssl := ssl;
                    _apikey := apikey; _bootstrap := PyNone |} w
    = (Ok (_bootstrap self), w') /\
  self = {| _host := host; _port := port; _path := path; _ssl := ssl;
            _apikey := apikey; _bootstrap := _bootstrap self |} /\
  exists v, server_version self = Ok v.
Proof.
  unfold __init__. destruct (String.eqb path "/") eqn:Ep; simpl; [|discriminate].
  apply String.eqb_eq in Ep. unfold bind.
  destruct (_get_bootstrap _ w) as [[b|e] w1]; [|discriminate].
  unfold lift.
  destruct (server_version _) as [v|e] eqn:Ev; [|discriminate].
  unfold ret. intros H. inversion H; subst. simpl. eauto.
Qed.

(** X10.  A client that [__init__] returns has a version that parses: on it
    [server_version] does not raise and [camera_identifier] is "id" or
    "uuid"; its attributes are the arguments, with path "/". *)
Theorem constructed_client_has_version (host : string) (port : Z)
    (apikey path : string) (ssl : bool) (w w' : world) (self : UVCRemote) :
  __init__ host port apikey path ssl w = (Ok self, w') ->
  (_host self = host /\ _port self = port /\ _apikey self = apikey /\
   _ssl self = ssl /\ _path self = "/") /\
  (exists v, server_version self = Ok v) /\
  (camera_identifier self = Ok "id" \/ camera_identifier self = Ok "uuid").
Proof.
  intros H. destruct (init_returns _ _ _ _ _ _ _ _ H) as [Hp [_ [Hs [v Hv]]]].
  split; [|split].
  - rewrite Hs. simpl. subst path. auto.
  - eauto.
  - unfold camera_identifier. rewrite Hv. cbv [rbind].
    destruct (tuple_ge v (3, 2, 0)); auto.
Qed.

(** X11.  When the bootstrap is answered with 401 or 403 the constructor
    raises [NotAuthorized]; when it is answered with an empty [data] list
    the constructor raises [IndexError]. *)
Theorem init_fails_with_bootstrap (host : string) (port : Z) (apikey : string)
    (ssl : bool) (w : world) (s' : server) (resp : response) :
  (forall ep rq, handle (nvr w) ep rq = (s', Responded resp)) ->
  (status resp = 401 \/ status resp = 403 ->
   fst (__init__ host port apikey "/" ssl w) =
   Raise (NotAuthorized "NVR reported authorization failure")) /\
  (status resp = 200 -> getheaders resp = [] ->
   json_loads (read resp) = Some (PyDict [("data", PyList [])]) ->
   fst (__init__ host port apikey "/" ssl w) = Raise IndexError).
Proof.
  intros Hans. unfold __init__.
  change (String.eqb "/" "/") with true. cbv [negb].
  unfold bind, _get_bootstrap, bind, _uvc_request, try_except.
  match goal with
  | |- context [_uvc_request_safe ?s ?p ?m ?d ?mt w] =>
      pose proof (uvc_request_safe_answered s p m d mt w s' resp (Hans _ _)) as Hr;
      destruct (_uvc_request_safe s p m d mt w) as [r w1]
  end.
  simpl in Hr. subst r. split.
  - intros [-> | ->]; reflexivity.
  - intros -> -> Hbody. simpl. rewrite status_200_accepted.
    unfold parsed. rewrite Hbody. reflexivity.
Qed.

End SessionMore.

(** ** The camera index, in general *)

Lemma py_eq_str_r (x : pyval) (s : string) :
  py_eq x (PyStr s) = match x with PyStr t => String.eqb t s | _ => false end.
Proof. destruct x; try reflexivity; simpl; destruct b; reflexivity. Qed.

Lemma kv_get_set_str (n nm : string) (v : pyval) (acc : list (pyval * pyval)) :
  kv_get (PyStr n) (kv_set (PyStr nm) v acc) =
  if String.eqb nm n then Some v else kv_get (PyStr n) acc.
Proof.
  induction acc as [|[k0 v0] acc IH]; simpl.
  - reflexivity.
  - destruct (py_eq k0 (PyStr nm)) eqn:E0.
    + rewrite py_eq_str_r in E0. destruct k0; try discriminate.
      apply String.eqb_eq in E0. subst s. simpl.
      destruct (String.eqb nm n); reflexivity.
    + simpl. rewrite IH. destruct (py_eq k0 (PyStr n)) eqn:E1; [|reflexivity].
      rewrite py_eq_str_r in E0, E1. destruct k0; try discriminate.
      apply String.eqb_eq in E1. subst s.
      rewrite String.eqb_sym, E0. reflexivity.
Qed.

Lemma find_snoc {A} (p : A -> bool) (l : list A) (x : A) :
  find p (l ++ [x]) =
  match find p l with
  | Some y => Some y
  | None => if p x then Some x else None
  end.
Proof.
  induction l as [|y l IH]; simpl; [reflexivity|].
  destruct (p y); [reflexivity | exact IH].
Qed.

Lemma index_entries_spec (cams : list pyval) :
  Forall listable cams ->
  index_entries cams = Ok (map entry_of (filter is_live cams)).
Proof.
  induction 1 as [|x cams [d [deleted [-> [Hdel Hkeys]]]] _ IH]; [reflexivity|].
  assert (Hl : is_live (PyDict d) = negb (py_truthy deleted)).
  { unfold is_live. cbn [getitem]. rewrite Hdel. reflexivity. }
  cbn [index_entries filter]. rewrite Hl. cbn [getitem]. rewrite Hdel. cbn [rbind].
  destruct (py_truthy deleted) eqn:Et; cbn [negb]; [exact IH|].
  rewrite IH. cbn [map rbind]. unfold entry_of, field. cbn [getitem].
  specialize (Hkeys eq_refl).
  pose proof (Hkeys "name" ltac:(simpl; tauto)) as H1.
  pose proof (Hkeys "uuid" ltac:(simpl; tauto)) as H2.
  pose proof (Hkeys "state" ltac:(simpl; tauto)) as H3.
  pose proof (Hkeys "managed" ltac:(simpl; tauto)) as H4.
  pose proof (Hkeys "_id" ltac:(simpl; tauto)) as H5.
  destruct (dict_get "name" d); [|congruence].
  destruct (dict_get "uuid" d); [|congruence].
  destruct (dict_get "state" d); [|congruence].
  destruct (dict_get "managed" d); [|congruence].
  destruct (dict_get "_id" d); [|congruence].
  reflexivity.
Qed.

(** The comprehension over entries with string names: the last entry of a
    name decides. *)
Lemma by_name_spec (ident n : string) (es : list pyval) (acc : list (pyval * pyval)) :
  Forall (fun e => exists d nm v, e = PyDict d /\ dict_get "name" d = Some (PyStr nm) /\
                                  dict_get ident d = Some v) es ->
  exists m,
    by_name ident es acc = Ok m /\
    kv_get (PyStr n) m =
    match find (fun e => py_eq (field e "name") (PyStr n)) (rev es) with
    | Some e => Some (field e ident)
    | None => kv_get (PyStr n) acc
    end.
Proof.
  intros H. revert acc.
  induction H as [|e es [d [nm [v [-> [Hn Hv]]]]] _ IH]; intros acc.
  - exists acc. split; reflexivity.
  - cbn [by_name getitem rbind]. rewrite Hn, Hv. cbn [hashable].
    destruct (IH (kv_set (PyStr nm) v acc)) as [m [Hm Hget]].
    exists m. split; [exact Hm|]. rewrite Hget.
    cbn [rev]. rewrite find_snoc.
    destruct (find _ (rev es)); [reflexivity|].
    rewrite kv_get_set_str. unfold field at 1. cbn [getitem]. rewrite Hn.
    cbn [py_eq]. destruct (String.eqb nm n); [|reflexivity].
    unfold field. cbn [getitem]. rewrite Hv. reflexivity.
Qed.

Section IndexMore.

Context {W : Wire} {N : Nvr}.

Lemma index_run (self : UVCRemote) (w w1 : world)
    (data : pyval) (cams : list pyval) :
  _uvc_request self "/api/2.0/camera" "GET" None w = (Ok data, w1) ->
  getitem data "data" = Ok (PyList cams) ->
  Forall listable cams ->
  index self w = (Ok (map entry_of (filter is_live cams)), w1).
Proof.
  intros Hget Hdata Hcams. unfold index, bind. rewrite Hget.
  unfold lift. rewrite Hdata. cbn [rbind py_iter].
  rewrite (index_entries_spec cams Hcams). reflexivity.
Qed.

(** X12.  [index] lists the cameras that are not deleted, in the NVR's
    order, each as the five fields name, uuid, state, managed and id (the
    camera's [_id]); a deleted camera needs no field but [deleted]. *)
Theorem index_lists_live_cameras (self : UVCRemote) (w w1 : world)
    (data : pyval) (cams : list pyval) :
  _uvc_request self "/api/2.0/camera" "GET" None w = (Ok data, w1) ->
  getitem data "data" = Ok (PyList cams) ->
  Forall listable cams ->
  index self w = (Ok (map entry_of (filter is_live cams)), w1).
Proof. exact (index_run self w w1 data cams). Qed.

Lemma find_map {A B} (f : A -> B) (p : B -> bool) (l : list A) :
  find p (map f l) = option_map f (find (fun x => p (f x)) l).
Proof.
  induction l as [|x l IH]; simpl; [reflexivity|].
  destruct (p (f x)); [reflexivity | exact IH].
Qed.

(** X13.  With cameras named by strings, [name_to_uuid] returns the
    identifier of the last camera of that name among those not deleted -
    its [_id] from version 3.2.0 on, its [uuid] before - and [None] when
    there is none: a deleted camera of that name is not found. *)
Theorem name_to_uuid_finds_last_named (self : UVCRemote) (name : string)
    (w w1 : world) (data : pyval) (cams : list pyval) (v : Z * Z * Z) :
  _uvc_request self "/api/2.0/camera" "GET" None w = (Ok data, w1) ->
  getitem data "data" = Ok (PyList cams) ->
  Forall listable cams ->
  Forall (fun x => is_live x = true -> exists nm, field x "name" = PyStr nm) cams ->
  server_version self = Ok v ->
  name_to_uuid self name w =
  (Ok (match last_named name cams with
       | Some x => field x (if tuple_ge v (3, 2, 0) then "_id" else "uuid")
       | None => PyNone
       end), w1).
Proof.
  intros Hget Hdata Hcams Hnames Hv. unfold name_to_uuid, bind.
  rewrite (index_run self w w1 data cams Hget Hdata Hcams).
  unfold lift. rewrite Hv.
  assert (Hes : forall ident, In ident ["id"; "uuid"] ->
            Forall (fun e => exists d nm x, e = PyDict d /\
                                dict_get "name" d = Some (PyStr nm) /\
                                dict_get ident d = Some x)
                   (map entry_of (filter is_live cams))).
  { intros ident Hid. apply Forall_forall. intros e He.
    apply in_map_iff in He. destruct He as [x [<- Hx]].
    apply filter_In in Hx. destruct Hx as [Hx Hlive].
    rewrite Forall_forall in Hnames.
    destruct (Hnames x Hx Hlive) as [nm Hnm].
    unfold entry_of. rewrite Hnm.
    destruct Hid as [<-|[<-|[]]]; eexists; exists nm; eexists;
      (split; [reflexivity|]); split; reflexivity. }
  unfold last_named.
  destruct (tuple_ge v (3, 2, 0)).
  - destruct (by_name_spec "id" name _ [] (Hes "id" ltac:(simpl; tauto)))
      as [m [Hm Hget']].
    rewrite Hm. unfold ret. rewrite Hget'.
    rewrite <- map_rev, find_map.
    destruct (find _ (rev (filter is_live cams))); reflexivity.
  - destruct (by_name_spec "uuid" name _ [] (Hes "uuid" ltac:(simpl; tauto)))
      as [m [Hm Hget']].
    rewrite Hm. unfold ret. rewrite Hget'.
    rewrite <- map_rev, find_map.
    destruct (find _ (rev (filter is_live cams))); reflexivity.
Qed.

End IndexMore.

(** ** Writes against the NVR that stores what is PUT *)

Lemma envelope_differs_from_group (cam x : pyval) (k : string)
    (e : list (string * pyval)) :
  dict_get k e = Some x -> k <> "data" ->
  py_eq (envelope cam) (PyDict e) = false.
Proof.
  intros Hk Hne. unfold envelope. cbn [py_eq List.length].
  destruct e as [|[k0 v0] [|kv e]]; try reflexivity.
  cbn [dict_get] in Hk. cbn [List.length Nat.eqb andb dict_get].
  destruct (String.eqb k k0) eqn:E; [|discriminate].
  apply String.eqb_eq in E. subst k0.
  destruct (String.eqb "data" k) eqn:Ed; [|reflexivity].
  apply String.eqb_eq in Ed. congruence.
Qed.

Lemma envelope_differs_from_scalar (cam x : pyval) :
  hashable x = true -> py_eq (envelope cam) x = false.
Proof. destruct x; try discriminate; reflexivity. Qed.

Lemma dict_set_set {A} (k : string) (v v' : A) (d : list (string * A)) :
  dict_set k v' (dict_set k v d) = dict_set k v' d.
Proof.
  induction d as [|[k0 v0] d IH]; simpl.
  - rewrite String.eqb_refl. reflexivity.
  - destruct (String.eqb k k0) eqn:E; simpl; rewrite E; [reflexivity|].
    rewrite IH. reflexivity.
Qed.

Section StoringMore.

Context {W : Wire}.

Hypothesis loads_dumps : forall v, json_loads (json_dumps v) = Some v.

Let N : Nvr := storing_nvr W.
Existing Instance N.

Local Opaque _uvc_request.

Ltac stored :=
  repeat first
    [ rewrite (storing_get loads_dumps)
    | rewrite (storing_put loads_dumps)
    | rewrite dict_get_set_same
    | rewrite dict_get_set
    | match goal with H : dict_get _ _ = _ |- _ => rewrite H end
    | match goal with
      | |- context [lower ?s] =>
          let r := eval vm_compute in (lower s) in change (lower s) with r
      end
    | progress unfold item_eq, item_gt_zero, py_and, py_gt_zero, getitem, rbind, ret,
        dump, emit, bind, lift
    | progress cbn ].

(** X14.  What [set_brightness] writes, [get_brightness] reads: the level
    set comes back, whatever value it is, although the setter itself
    returns [None]. *)
Theorem brightness_round_trip (self : UVCRemote) (uuid : string) (level : pyval)
    (cam isp : list (string * pyval)) (w : world) :
  nvr w = PyDict cam ->
  dict_get "ispSettings" cam = Some (PyDict isp) ->
  fst ((_ <- set_brightness self uuid level ;; get_brightness self uuid) w) = Ok level.
Proof.
  intros Hcam Hisp. destruct w as [s tr]. simpl in Hcam. subst s.
  unfold set_brightness, get_brightness, bind. stored. reflexivity.
Qed.

Ltac unfold_levels :=
  unfold call_level_setter, call_level_getter, set_irbrightness, get_irbrightness,
    set_contrast, get_contrast, set_ircontrast, get_ircontrast, set_denoise,
    get_denoise, set_irdenoise, get_irdenoise, set_hue, get_hue, set_irhue,
    get_irhue, set_saturation, get_saturation, set_irsaturation, get_irsaturation,
    set_sharpness, get_sharpness, set_irsharpness, get_irsharpness, set_wdr,
    get_wdr, bind; cbn [level_field] in *.

(** X15.  The twelve other level setters ([set_contrast], [set_hue],
    [set_wdr], ...) store the level in [ispSettings] and then look the
    field up at the top of the camera: when the camera has no such
    top-level key the call raises [KeyError] after the write has taken
    effect, and when it has one the call returns [None]; either way the
    getter of the field then returns the level. *)
Theorem level_setters_write_then_miss (s : level_setter) (self : UVCRemote)
    (uuid : string) (level : pyval) (cam isp : list (string * pyval)) (w : world) :
  nvr w = PyDict cam ->
  dict_get "ispSettings" cam = Some (PyDict isp) ->
  (dict_get (level_field s) cam = None ->
   fst (call_level_setter s self uuid level w) = Raise KeyError) /\
  (dict_get (level_field s) cam <> None ->
   fst (call_level_setter s self uuid level w) = Ok PyNone) /\
  fst (call_level_getter s self uuid (snd (call_level_setter s self uuid level w)))
    = Ok level.
Proof.
  intros Hcam Hisp. destruct w as [st tr]. simpl in Hcam. subst st.
  assert (Hne : forall k, k <> "ispSettings" ->
            dict_get k (dict_set "ispSettings"
                          (PyDict (dict_set k level isp)) cam) = dict_get k cam).
  { intros k Hk. rewrite dict_get_set.
    destruct (String.eqb k "ispSettings") eqn:E; [|reflexivity].
    apply String.eqb_eq in E. contradiction. }
  destruct s; unfold_levels;
    (split; [intros Hnone | split; [intros Hsome|]]);
    repeat first
      [ rewrite (storing_get loads_dumps)
      | rewrite (storing_put loads_dumps)
      | rewrite Hisp
      | rewrite Hne by discriminate
      | rewrite dict_get_set_same
      | match goal with
        | |- context [dict_get ?k cam] => destruct (dict_get k cam) eqn:?
        end
      | progress cbn ];
    try discriminate; try contradiction; reflexivity.
Qed.

Local Opaque py_eq.

(** X16.  [set_cameramicvolume], [set_recordprepaddingtime] and
    [set_recordpostpaddingtime] store the value - their getters then return
    it - and return [False] all the same: each compares the whole response
    with the updated value or group. *)
Theorem plain_setters_store_and_return_false (self : UVCRemote) (uuid : string)
    (x : pyval) (cam rec : list (string * pyval)) (w : world) :
  nvr w = PyDict cam ->
  dict_get "recordingSettings" cam = Some (PyDict rec) ->
  hashable x = true ->
  (fst (set_cameramicvolume self uuid x w) = Ok (PyBool false) /\
   fst (get_cameramicvolume self uuid (snd (set_cameramicvolume self uuid x w)))
     = Ok x) /\
  (fst (set_recordprepaddingtime self uuid x w) = Ok (PyBool false) /\
   fst (get_recordprepaddingtime self uuid
          (snd (set_recordprepaddingtime self uuid x w))) = Ok x) /\
  (fst (set_recordpostpaddingtime self uuid x w) = Ok (PyBool false) /\
   fst (get_recordpostpaddingtime self uuid
          (snd (set_recordpostpaddingtime self uuid x w))) = Ok x).
Proof.
  intros Hcam Hrec Hx. destruct w as [st tr]. simpl in Hcam. subst st.
  unfold set_cameramicvolume, get_cameramicvolume, set_recordprepaddingtime,
    get_recordprepaddingtime, set_recordpostpaddingtime, get_recordpostpaddingtime,
    bind.
  repeat split; stored; try reflexivity.
  - rewrite (envelope_differs_from_scalar _ x Hx). reflexivity.
  - rewrite (envelope_differs_from_group _ x "prePaddingSecs" _
               (dict_get_set_same _ _ _) ltac:(discriminate)).
    reflexivity.
  - rewrite (envelope_differs_from_group _ x "postPaddingSecs" _
               (dict_get_set_same _ _ _) ltac:(discriminate)).
    reflexivity.
Qed.

Local Transparent py_eq.

(** X17.  [prune_zones] leaves the camera with its first zone only -
    [list_zones] then returns a list of that one zone - touches no other
    field, and pruning twice is pruning once. *)
Theorem prune_zones_keeps_first (self : UVCRemote) (uuid : string)
    (z : pyval) (zones : list pyval) (cam : list (string * pyval)) (w : world) :
  nvr w = PyDict cam ->
  dict_get "zones" cam = Some (PyList (z :: zones)) ->
  fst ((_ <- prune_zones self uuid ;; list_zones self uuid) w) = Ok (PyList [z]) /\
  nvr (snd (prune_zones self uuid w)) = PyDict (dict_set "zones" (PyList [z]) cam) /\
  (forall k, k <> "zones" ->
     getitem (nvr (snd (prune_zones self uuid w))) k = getitem (PyDict cam) k) /\
  nvr (snd ((_ <- prune_zones self uuid ;; prune_zones self uuid) w)) =
  nvr (snd (prune_zones self uuid w)).
Proof.
  intros Hcam Hz. destruct w as [st tr]. simpl in Hcam. subst st.
  unfold prune_zones, list_zones, bind.
  split; [|split; [|split]]; stored; try reflexivity.
  - intros k Hk. rewrite dict_get_set.
    destruct (String.eqb k "zones") eqn:E; [|reflexivity].
    apply String.eqb_eq in E. contradiction.
  - rewrite dict_set_set. reflexivity.
Qed.

(** X18.  On a camera without zones [prune_zones] raises [IndexError]
    after its GET: no PUT is sent and the camera is as it was. *)
Theorem prune_zones_needs_a_zone (self : UVCRemote) (uuid : string)
    (cam : list (string * pyval)) (w : world) :
  nvr w = PyDict cam ->
  dict_get "zones" cam = Some (PyList []) ->
  fst (prune_zones self uuid w) = Raise IndexError /\
  nvr (snd (prune_zones self uuid w)) = PyDict cam /\
  map rq_method (requests_of (trace (snd (prune_zones self uuid w)))) =
  (map rq_method (requests_of (trace w)) ++ ["GET"])%list.
Proof.
  intros Hcam Hz. destruct w as [st tr]. simpl in Hcam. subst st.
  unfold prune_zones, bind. rewrite (storing_get loads_dumps).
  unfold lift, data_0_group, data_0, envelope. cbn [getitem dict_get String.eqb
    Ascii.eqb Bool.eqb rbind getitem0 fst snd nvr trace].
  cbn. rewrite Hz. cbn. repeat split.
  unfold requests_of. rewrite flat_map_app, map_app. reflexivity.
Qed.

Lemma dict_set_same_value {A} (k : string) (v : A) (d : list (string * A)) :
  dict_get k d = Some v -> dict_set k v d = d.
Proof.
  induction d as [|[k0 v0] d IH]; simpl; [discriminate|].
  destruct (String.eqb k k0) eqn:E.
  - intros H. inversion H; subst. reflexivity.
  - intros H. rewrite (IH H). reflexivity.
Qed.

Lemma apply_writes_frame (ws : list (string * pyval)) (k : string)
    (d : list (string * pyval)) :
  ~ In k (map fst ws) -> dict_get k (apply_writes ws d) = dict_get k d.
Proof.
  unfold apply_writes. revert d.
  induction ws as [|[k0 v0] ws IH]; intros d Hk; simpl in *; [reflexivity|].
  rewrite IH by tauto. rewrite dict_get_set.
  destruct (String.eqb k k0) eqn:E; [|reflexivity].
  apply String.eqb_eq in E. subst. tauto.
Qed.

(** Where a valid call of an enum or boolean setter leaves the NVR. *)
Lemma valid_setter_stores (s : enum_setter) (self : UVCRemote)
    (uuid value : string) (cam cam' : list (string * pyval)) (w : world) :
  nvr w = PyDict cam ->
  In (lower value) (setter_vocabulary s) ->
  setter_channel_ok s ->
  camera_after s (lower value) cam = Some cam' ->
  nvr (snd (call_setter s self uuid value w)) = PyDict cam'.
Proof.
  intros Hcam Hv Hchan Hafter. destruct w as [st tr]. simpl in Hcam. subst st.
  unfold camera_after in Hafter.
  destruct s; cbn [setter_group setter_vocabulary setter_channel_ok] in *;
    try match type of Hafter with
        | context [dict_get ?g cam] =>
            destruct (dict_get g cam) as [[| | | | | |grp]|] eqn:Hg; try discriminate
        end;
    inversion Hafter; subst cam'; clear Hafter;
    unfold call_setter, set_enablestatusled, set_enablesuggestedvideosettings,
      set_externalirmode, set_showosddatemode, set_showosdlogomode,
      set_lensdistortioncorrectionmode, set_aemode, set_aggressiveantiflicker,
      set_irsensitivity, set_irledmode, set_recordmode, bind;
    set (l := lower value) in *; clearbody l.
  all: try (assert (Hc : chan = None \/ chan = Some "" \/ chan = Some "high" \/
                         chan = Some "medium" \/ chan = Some "low")
              by (destruct chan as [c|]; [|auto]; simpl in Hchan;
                  destruct Hchan as [->|[<-|[<-|[<-|[]]]]]; auto);
            destruct Hc as [->|[->|[->|[->| ->]]]]).
  all: simpl in Hv;
    repeat match type of Hv with
           | _ \/ _ => destruct Hv as [<-|Hv]
           | False => contradiction
           end;
    stored; reflexivity.
Qed.

Lemma apply_writes_get (ws : list (string * pyval)) (k : string) (v : pyval)
    (d : list (string * pyval)) :
  NoDup (map fst ws) -> In (k, v) ws -> dict_get k (apply_writes ws d) = Some v.
Proof.
  unfold apply_writes. revert d.
  induction ws as [|[k0 v0] ws IH]; intros d Hnd Hin; simpl in *; [contradiction|].
  inversion Hnd as [|? ? Hk0 Hnd']; subst.
  destruct Hin as [Hin|Hin].
  - inversion Hin; subst.
    pose proof (apply_writes_frame ws k (dict_set k v d) Hk0) as Hf.
    unfold apply_writes in Hf. rewrite Hf. apply dict_get_set_same.
  - apply IH; assumption.
Qed.

Lemma apply_writes_fixed (ws : list (string * pyval)) (d : list (string * pyval)) :
  (forall k v, In (k, v) ws -> dict_get k d = Some v) -> apply_writes ws d = d.
Proof.
  unfold apply_writes.
  induction ws as [|[k0 v0] ws IH]; intros H; simpl; [reflexivity|].
  rewrite (dict_set_same_value k0 v0 d) by (apply H; simpl; auto).
  apply IH. intros k v Hin. apply H. simpl. auto.
Qed.

Lemma setter_writes_distinct (s : enum_setter) (l : string) :
  setter_channel_ok s -> NoDup (map fst (setter_writes s l)).
Proof.
  destruct s; cbn [setter_channel_ok setter_writes]; intros Hchan;
    try (repeat constructor; simpl; intuition discriminate).
  destruct chan as [c|]; simpl in Hchan;
    [destruct Hchan as [->|[<-|[<-|[<-|[]]]]]|];
    cbn; repeat constructor; simpl; intuition discriminate.
Qed.

Lemma camera_after_again (s : enum_setter) (l : string)
    (cam cam' : list (string * pyval)) :
  setter_channel_ok s ->
  camera_after s l cam = Some cam' -> camera_after s l cam' = Some cam'.
Proof.
  intros Hchan. pose proof (setter_writes_distinct s l Hchan) as Hnd.
  unfold camera_after. destruct (setter_group s) as [g|].
  - destruct (dict_get g cam) as [[| | | | | |grp]|] eqn:Hg; try discriminate.
    intros H. inversion H; subst cam'. rewrite dict_get_set_same.
    rewrite dict_set_set. do 3 f_equal.
    apply apply_writes_fixed. intros k v Hin. apply apply_writes_get; assumption.
  - intros H. inversion H; subst cam'. f_equal.
    apply apply_writes_fixed. intros k v Hin. apply apply_writes_get; assumption.
Qed.

(** X19.  A valid call of an enum setter rewrites its own fields of its
    settings group and nothing else: the fields take the values of the
    setter's table, every other field of the group and every other entry of
    the camera is stored as it was read. *)
Theorem enum_setter_changes_only_its_fields (s : enum_setter) (self : UVCRemote)
    (uuid value g : string) (cam grp : list (string * pyval)) (w : world) :
  nvr w = PyDict cam ->
  In (lower value) (setter_vocabulary s) ->
  setter_channel_ok s ->
  setter_group s = Some g ->
  dict_get g cam = Some (PyDict grp) ->
  exists cam' grp',
    nvr (snd (call_setter s self uuid value w)) = PyDict cam' /\
    dict_get g cam' = Some (PyDict grp') /\
    (forall k, k <> g -> dict_get k cam' = dict_get k cam) /\
    (forall k, ~ In k (map fst (setter_writes s (lower value))) ->
               dict_get k grp' = dict_get k grp) /\
    (forall k v, In (k, v) (setter_writes s (lower value)) ->
                 dict_get k grp' = Some v).
Proof.
  intros Hcam Hv Hchan Hg Hgrp.
  exists (dict_set g (PyDict (apply_writes (setter_writes s (lower value)) grp)) cam).
  exists (apply_writes (setter_writes s (lower value)) grp).
  split; [|split; [|split; [|split]]].
  - apply (valid_setter_stores s self uuid value cam _ w Hcam Hv Hchan).
    unfold camera_after. rewrite Hg, Hgrp. reflexivity.
  - apply dict_get_set_same.
  - intros k Hk. rewrite dict_get_set.
    destruct (String.eqb k g) eqn:E; [|reflexivity].
    apply String.eqb_eq in E. contradiction.
  - intros k Hk. apply apply_writes_frame. exact Hk.
  - intros k v Hin. apply apply_writes_get; [|exact Hin].
    apply setter_writes_distinct. exact Hchan.
Qed.

(** X20.  Calling an enum or boolean setter twice with the same valid value
    leaves the NVR in the state one call leaves it in. *)
Theorem enum_setter_idempotent (s : enum_setter) (self : UVCRemote)
    (uuid value : string) (cam cam' : list (string * pyval)) (w : world) :
  nvr w = PyDict cam ->
  In (lower value) (setter_vocabulary s) ->
  setter_channel_ok s ->
  camera_after s (lower value) cam = Some cam' ->
  nvr (snd ((_ <- call_setter s self uuid value ;;
             call_setter s self uuid value) w)) =
  nvr (snd (call_setter s self uuid value w)).
Proof.
  intros Hcam Hv Hchan Hafter.
  pose proof (valid_setter_stores s self uuid value cam cam' w Hcam Hv Hchan Hafter)
    as H1.
  unfold bind. destruct (call_setter s self uuid value w) as [[r|e] w1];
    [|reflexivity].
  simpl in H1. simpl.
  rewrite (valid_setter_stores s self uuid value cam' cam' w1 H1 Hv Hchan
             (camera_after_again s (lower value) cam cam' Hchan Hafter)).
  symmetry. exact H1.
Qed.

End StoringMore.

(** ** What every call does, on any NVR *)

Lemma lower_char_idem (c : ascii) : lower_char (lower_char c) = lower_char c.
Proof. destruct c as [[] [] [] [] [] [] [] []]; reflexivity. Qed.

Lemma lower_idem (s : string) : lower (lower s) = lower s.
Proof.
  induction s as [|c s IH]; simpl; [reflexivity|].
  rewrite lower_char_idem, IH. reflexivity.
Qed.

Section AnyNvr.

Context {W : Wire} {N : Nvr}.

(** X21.  The enum and boolean setters do not distinguish letter case: a
    call with a value is the call with its lower-case form, so "LOW" and
    "Low" are accepted as "low". *)
Theorem enum_setter_ignores_case (s : enum_setter) (self : UVCRemote)
    (uuid value : string) :
  call_setter s self uuid value = call_setter s self uuid (lower value).
Proof.
  destruct s; unfold call_setter, set_enablestatusled,
    set_enablesuggestedvideosettings, set_externalirmode, set_showosddatemode,
    set_showosdlogomode, set_lensdistortioncorrectionmode, set_aemode,
    set_aggressiveantiflicker, set_irsensitivity, set_irledmode, set_recordmode;
    rewrite lower_idem; reflexivity.
Qed.

Ltac settle_world :=
  repeat match goal with
         | |- context [match ?r with Ok _ => _ | Raise _ => _ end] => destruct r; simpl
         | |- context [if ?c then _ else _] => destruct c; simpl
         end.

(** X22.  A table-decoding getter only reads: whatever the NVR answers
    and whatever the getter returns or raises, it has sent exactly one
    request, the GET of the camera, and nothing else has happened. *)
Theorem enum_getter_sends_one_get (g : enum_getter) (self : UVCRemote)
    (uuid : string) (w : world) :
  snd (call_getter g self uuid w) =
  {| nvr := fst (handle (nvr w) (_get_http_connection self)
                        (request_sent self (camera_url uuid) "GET" None
                                      "application/json"));
     trace := trace w ++
              [Sent (_get_http_connection self)
                    (request_sent self (camera_url uuid) "GET" None
                                  "application/json")] |}.
Proof.
  pose proof (uvc_request_world self (camera_url uuid) "GET" None w) as Hw.
  destruct g;
    unfold call_getter, get_externalirmode, get_showosddatemode,
      get_showosdlogomode, get_lensdistortioncorrectionmode, get_aemode,
      get_aggressiveantiflicker, get_orientation, get_irsensitivity,
      get_irledmode, bind;
    destruct (_uvc_request self (camera_url uuid) "GET" None w) as [[data|e] w1];
    simpl in Hw; subst w1; try reflexivity;
    unfold lift, ret; settle_world; reflexivity.
Qed.

End AnyNvr.

(** ** Accepted and refused answers *)

Section Answers.

Context {W : Wire} {N : Nvr}.

(** X4.  Under Python 2 every status of 200-299 passes the status check
    of [_uvc_request_safe]: the call goes on to the body and raises neither
    [NotAuthorized] nor [NvrError]. *)
Theorem uvc_request_safe_py2_accepts_2xx (self : UVCRemote) (path method : string)
    (data : option bytes) (mimetype : string) (w : world) (s' : server)
    (resp : response) :
  py = Py2 ->
  200 <= status resp <= 299 ->
  handle (nvr w) (_get_http_connection self)
         (request_sent self path method data mimetype) = (s', Responded resp) ->
  fst (_uvc_request_safe self path method data mimetype w) =
  (if header_is (getheaders resp) "content-encoding" "gzip"
      || header_is (getheaders resp) "Content-Encoding" "gzip"
   then match zlib_decompress (read resp) with
        | Some d => parsed d
        | None => Raise ZlibError
        end
   else parsed (read resp)) /\
  (forall msg, fst (_uvc_request_safe self path method data mimetype w)
               <> Raise (NvrError msg)) /\
  (forall msg, fst (_uvc_request_safe self path method data mimetype w)
               <> Raise (NotAuthorized msg)).
Proof.
  intros Hpy Hst Hans.
  rewrite (uvc_request_safe_answered _ _ _ _ _ _ _ _ Hans).
  replace ((status resp =? 401) || (status resp =? 403)) with false
    by (symmetry; apply orb_false_iff; split; apply Z.eqb_neq; lia).
  rewrite (py2_division_accepts_2xx _ Hpy Hst).
  split; [reflexivity|]. unfold parsed.
  split; intros msg; case_ifs; discriminate.
Qed.

(** X5.  An accepted answer whose body cannot be used raises the codec's
    own error through [_uvc_request], not [NvrError]: [zlib.error] when the
    header says gzip and the body does not decompress, [ValueError] when
    the body is not JSON. *)
Theorem unusable_body_raises_codec_error (self : UVCRemote) (path method : string)
    (data : option bytes) (w : world) (s' : server) (resp : response) :
  handle (nvr w) (_get_http_connection self)
         (request_sent self path method data "application/json")
    = (s', Responded resp) ->
  status resp = 200 ->
  (header_is (getheaders resp) "Content-Encoding" "gzip" = true ->
   zlib_decompress (read resp) = None ->
   fst (_uvc_request self path method data w) = Raise ZlibError) /\
  (header_is (getheaders resp) "content-encoding" "gzip" = false ->
   header_is (getheaders resp) "Content-Encoding" "gzip" = false ->
   json_loads (read resp) = None ->
   fst (_uvc_request self path method data w) = Raise ValueError).
Proof.
  intros Hans Hst.
  pose proof (uvc_request_safe_answered self path method data "application/json"
                w s' resp Hans) as Hr.
  rewrite Hst in Hr. cbn [Z.eqb Pos.eqb orb] in Hr.
  rewrite status_200_accepted in Hr.
  unfold _uvc_request, try_except.
  destruct (_uvc_request_safe self path method data "application/json" w) as [r w1].
  simpl in Hr. subst r. split.
  - intros Hgz Hz. rewrite Hgz, orb_true_r, Hz. reflexivity.
  - intros H1 H2 Hj. rewrite H1, H2. unfold parsed. rewrite Hj. reflexivity.
Qed.

End Answers.

(** ** More round trips against the storing NVR *)

Section StoringEdge.

Context {W : Wire}.

Hypothesis loads_dumps : forall v, json_loads (json_dumps v) = Some v.

Let N : Nvr := storing_nvr W.
Existing Instance N.

Local Opaque _uvc_request.

Ltac stored' :=
  repeat first
    [ rewrite (storing_get loads_dumps)
    | rewrite (storing_put loads_dumps)
    | rewrite dict_get_set_same
    | rewrite dict_get_set
    | match goal with H : dict_get _ _ = _ |- _ => rewrite H end
    | match goal with
      | |- context [lower ?s] =>
          let r := eval vm_compute in (lower s) in change (lower s) with r
      end
    | progress unfold item_eq, item_gt_zero, py_and, py_gt_zero, getitem, rbind, ret,
        dump, emit, bind, lift
    | progress cbn ].

(** X24.  The exposure modes are set under one name and read back under
    another: "normal" reads back as "normal", "antiflicker50hz" as
    "anti-flicker for 50hz light", "antiflicker60hz" as "anti-flicker for
    60hz light"; "disabled" and "enabled" of the aggressive anti-flicker
    read back as themselves. *)
Theorem ae_modes_read_back (self : UVCRemote) (uuid : string)
    (cam isp : list (string * pyval)) (w : world) :
  nvr w = PyDict cam ->
  dict_get "ispSettings" cam = Some (PyDict isp) ->
  fst ((_ <- set_aemode self uuid "normal" ;; get_aemode self uuid) w)
    = Ok "normal" /\
  fst ((_ <- set_aemode self uuid "antiflicker50hz" ;; get_aemode self uuid) w)
    = Ok "anti-flicker for 50hz light" /\
  fst ((_ <- set_aemode self uuid "antiflicker60hz" ;; get_aemode self uuid) w)
    = Ok "anti-flicker for 60hz light" /\
  (forall v, In v ["disabled"; "enabled"] ->
     fst ((_ <- set_aggressiveantiflicker self uuid v ;;
           get_aggressiveantiflicker self uuid) w) = Ok v).
Proof.
  intros Hcam Hisp. destruct w as [s tr]. simpl in Hcam. subst s.
  unfold set_aemode, get_aemode, set_aggressiveantiflicker,
    get_aggressiveantiflicker, bind.
  repeat split; try (intros v [<-|[<-|[]]]); stored'; reflexivity.
Qed.

(** X25.  [set_recordmode] with a channel that is not one of "high",
    "medium", "low" - the channel is not lower-cased, so "High" is one -
    raises [ValueError] after its two GETs: nothing is PUT and the camera
    is as it was. *)
Theorem recordmode_unknown_channel (self : UVCRemote) (uuid mode c : string)
    (cam rec : list (string * pyval)) (w : world) :
  nvr w = PyDict cam ->
  dict_get "recordingSettings" cam = Some (PyDict rec) ->
  In (lower mode) recordmode_vocabulary ->
  c <> "" -> ~ In c CHANNEL_NAMES ->
  fst (set_recordmode self uuid mode (Some c) w) = Raise ValueError /\
  nvr (snd (set_recordmode self uuid mode (Some c) w)) = PyDict cam /\
  map rq_method (requests_of (trace (snd (set_recordmode self uuid mode (Some c) w))))
  = (map rq_method (requests_of (trace w)) ++ ["GET"; "GET"])%list.
Proof.
  intros Hcam Hrec Hmode Hc Hout. destruct w as [s tr]. simpl in Hcam. subst s.
  assert (E1 : String.eqb c "high" = false)
    by (apply String.eqb_neq; intros ->; apply Hout; simpl; tauto).
  assert (E2 : String.eqb c "medium" = false)
    by (apply String.eqb_neq; intros ->; apply Hout; simpl; tauto).
  assert (E3 : String.eqb c "low" = false)
    by (apply String.eqb_neq; intros ->; apply Hout; simpl; tauto).
  assert (Hne : String.eqb c "" = false) by (apply String.eqb_neq; exact Hc).
  unfold set_recordmode, bind, dump, emit.
  set (l := lower mode) in *. clearbody l.
  simpl in Hmode.
  destruct Hmode as [<-|[<-|[<-|[]]]];
    repeat first
      [ rewrite (storing_get loads_dumps)
      | rewrite Hrec | rewrite Hne | rewrite E1 | rewrite E2 | rewrite E3
      | progress unfold lift, rbind, bind, dump, emit
      | progress cbn ];
    (split; [reflexivity|]); (split; [reflexivity|]);
    unfold requests_of; rewrite !flat_map_app, !map_app; cbn;
    rewrite <- !app_assoc; reflexivity.
Qed.

End StoringEdge.

(** ** The branches of [main] that need a camera *)

Section Branches.

Context {W : Wire} {N : Nvr}.

(** X27.  Without a camera - [opts.uuid] is [None] or empty - each of the
    four setter branches and four [--get-...] branches prints
    "Name or UUID is required" and returns 1: the client is not called and
    nothing is sent. *)
Theorem branch_without_uuid (b : uuid_branch) (client : UVCRemote)
    (uuid : option string) (w : world) :
  uuid = None \/ uuid = Some "" ->
  run_branch b client uuid w =
  (Ok (PyInt 1),
   {| nvr := nvr w; trace := trace w ++ [Printed "Name or UUID is required"] |}).
Proof.
  intros [-> | ->]; destruct b; reflexivity.
Qed.

(** Whenever a getter returns, the string is one of its vocabulary. *)
Lemma enum_getter_range (g : enum_getter) (self : UVCRemote) (uuid : string)
    (w w' : world) (s : string) :
  call_getter g self uuid w = (Ok s, w') -> In s (getter_vocabulary g).
Proof.
  destruct g;
    unfold call_getter, get_externalirmode, get_showosddatemode,
      get_showosdlogomode, get_lensdistortioncorrectionmode, get_aemode,
      get_aggressiveantiflicker, get_orientation, get_irsensitivity,
      get_irledmode, bind, lift, ret;
    destruct (_uvc_request self (camera_url uuid) "GET" None w) as [[data|e] w1];
    repeat match goal with
           | |- context [match ?r with Ok _ => _ | Raise _ => _ end] =>
               destruct r; simpl
           | |- context [if ?c then _ else _] => destruct c; simpl
           end;
    intros H; inversion H; subst; simpl; tauto.
Qed.

(** X28.  Whenever a table-decoding getter returns, whatever the NVR has
    answered, the string is one of the getter's fixed vocabulary. *)
Theorem enum_getter_result_in_vocabulary (g : enum_getter) (self : UVCRemote)
    (uuid : string) (w w' : world) (s : string) :
  call_getter g self uuid w = (Ok s, w') -> In s (getter_vocabulary g).
Proof. exact (enum_getter_range g self uuid w w' s). Qed.

Lemma recordmode_range (self : UVCRemote) (uuid : string) (w w' : world) (s : string) :
  get_recordmode self uuid w = (Ok s, w') -> In s ["full"; "motion"; "none"].
Proof.
  unfold get_recordmode, bind, lift, ret.
  destruct (_uvc_request self (camera_url uuid) "GET" None w) as [[data|e] w1];
    repeat match goal with
           | |- context [match ?r with Ok _ => _ | Raise _ => _ end] =>
               destruct r; simpl
           | |- context [if ?c then _ else _] => destruct c; simpl
           end;
    intros H; inversion H; subst; simpl; tauto.
Qed.

(** X29.  The [--get-recordmode] branch, when it returns for a camera, has
    printed the mode and returns the bool of [r == 'none']: [True] exactly
    for record mode "none".  The branches for external IR mode, IR
    sensitivity and IR LED mode, whose getters never say "none", return
    [False] whenever they return. *)
Theorem get_branch_returns_is_none (client : UVCRemote) (u : string)
    (w w' : world) (r : pyval) :
  u <> "" ->
  (main_get_recordmode client (Some u) w = (Ok r, w') ->
   exists s w1, get_recordmode client u w = (Ok s, w1) /\
                In s ["full"; "motion"; "none"] /\
                trace w' = (trace w1 ++ [Printed s])%list /\
                (r = PyBool true <-> s = "none") /\
                (r = PyBool true \/ r = PyBool false)) /\
  (main_get_externalirmode client (Some u) w = (Ok r, w') -> r = PyBool false) /\
  (main_get_irsensitivity client (Some u) w = (Ok r, w') -> r = PyBool false) /\
  (main_get_irledmode client (Some u) w = (Ok r, w') -> r = PyBool false).
Proof.
  intros Hu. apply String.eqb_neq in Hu.
  unfold main_get_recordmode, main_get_externalirmode, main_get_irsensitivity,
    main_get_irledmode. rewrite Hu. unfold bind, print, emit, ret.
  split; [|split; [|split]].
  - destruct (get_recordmode client u w) as [[s|e] w1] eqn:Hg; [|discriminate].
    intros H. inversion H; subst. exists s, w1.
    split; [reflexivity|]. split; [exact (recordmode_range _ _ _ _ _ Hg)|].
    split; [reflexivity|]. split.
    + split.
      * intros Hr. injection Hr as Hb. apply String.eqb_eq in Hb. exact Hb.
      * intros ->. reflexivity.
    + destruct (String.eqb s "none"); auto.
  - pose proof (enum_getter_range GExternalIrMode client u w) as Hr.
    cbn [call_getter] in Hr.
    destruct (get_externalirmode client u w) as [[s|e] w1]; [|discriminate].
    intros H. inversion H; subst. specialize (Hr _ _ eq_refl).
    simpl in Hr. intuition (subst; reflexivity).
  - pose proof (enum_getter_range GIrSensitivity client u w) as Hr.
    cbn [call_getter] in Hr.
    destruct (get_irsensitivity client u w) as [[s|e] w1]; [|discriminate].
    intros H. inversion H; subst. specialize (Hr _ _ eq_refl).
    simpl in Hr. intuition (subst; reflexivity).
  - pose proof (enum_getter_range GIrLedMode client u w) as Hr.
    cbn [call_getter] in Hr.
    destruct (get_irledmode client u w) as [[s|e] w1]; [|discriminate].
    intros H. inversion H; subst. specialize (Hr _ _ eq_refl).
    simpl in Hr. intuition (subst; reflexivity).
Qed.

End Branches.

(** ** Witnesses *)

(** A snapshot answered 201. *)
Lemma get_snapshot_accepts_only_200_witness :
  fst (get_snapshot (N := answering Py3 201 "Created" [] Garbage) a_client "cam1"
         (before Py3 201 "Created" [] Garbage)) =
  Raise (NvrError "Snapshot returned 201").
Proof.
  refine (proj2 (get_snapshot_accepts_only_200
                   (N := answering Py3 201 "Created" [] Garbage) a_client "cam1"
                   (before Py3 201 "Created" [] Garbage) tt
                   (answer Py3 201 "Created" [] Garbage) eq_refl) _).
  vm_compute. discriminate.
Defined.

(** A login answered 401. *)
Lemma main_test_login_exit_code_witness :
  fst (main_test_login (N := answering Py3 401 "Unauthorized" [] Garbage) a_client
         (PyStr "admin") (PyStr "secret")
         (before Py3 401 "Unauthorized" [] Garbage)) = Ok 1.
Proof.
  destruct (main_test_login_exit_code
              (N := answering Py3 401 "Unauthorized" [] Garbage) a_client
              (PyStr "admin") (PyStr "secret")
              (before Py3 401 "Unauthorized" [] Garbage) tt
              (answer Py3 401 "Unauthorized" [] Garbage) eq_refl)
    as [code [line [Hrun [Hcode [[-> | ->] _]]]]].
  - exfalso. destruct Hcode as [Hcode _]. specialize (Hcode eq_refl).
    vm_compute in Hcode. discriminate Hcode.
  - rewrite Hrun. reflexivity.
Defined.


(** A bootstrap answered with version 3.9.0. *)
Lemma constructed_client_has_version_witness :
  camera_identifier (W := plain_wire Py3) (client_at "3.9.0") = Ok "id" \/
  camera_identifier (W := plain_wire Py3) (client_at "3.9.0") = Ok "uuid".
Proof.
  refine (proj2 (proj2 (constructed_client_has_version
                          (N := answering Py3 200 "OK" [] (Plain a_bootstrap))
                          "nvr.local" 7080 "KEY" "/" false
                          (before Py3 200 "OK" [] (Plain a_bootstrap))
                          (snd (__init__ (N := answering Py3 200 "OK" [] (Plain a_bootstrap))
                                  "nvr.local" 7080 "KEY" "/" false
                                  (before Py3 200 "OK" [] (Plain a_bootstrap))))
                          (client_at "3.9.0") _))).
  vm_compute. reflexivity.
Defined.

(** A bootstrap answered 401. *)
Lemma init_fails_with_bootstrap_witness :
  fst (__init__ (N := answering Py3 401 "Unauthorized" [] Garbage)
         "nvr.local" 7080 "KEY" "/" false
         (before Py3 401 "Unauthorized" [] Garbage)) =
  Raise (NotAuthorized "NVR reported authorization failure").
Proof.
  exact (proj1 (init_fails_with_bootstrap
                  (N := answering Py3 401 "Unauthorized" [] Garbage)
                  "nvr.local" 7080 "KEY" false
                  (before Py3 401 "Unauthorized" [] Garbage) tt
                  (answer Py3 401 "Unauthorized" [] Garbage)
                  (fun _ _ => eq_refl)) (or_introl eq_refl)).
Defined.

Lemma three_cameras_listable : Forall listable three_cameras.
Proof.
  repeat constructor;
    (eexists; eexists; split; [reflexivity|]; split; [reflexivity|]);
    intros Hd k Hk; try discriminate Hd;
    simpl in Hk; intuition (subst; discriminate).
Defined.

Lemma three_cameras_named :
  Forall (fun x => is_live x = true -> exists nm, field x "name" = PyStr nm)
         three_cameras.
Proof.
  repeat constructor; intros H; try discriminate H; eexists; reflexivity.
Defined.

(** An index of three cameras, the second one deleted. *)
Lemma index_lists_live_cameras_witness :
  fst (index (N := answering Py3 200 "OK" []
                     (Plain (PyDict [("data", PyList three_cameras)])))
         a_client
         (before Py3 200 "OK" [] (Plain (PyDict [("data", PyList three_cameras)])))) =
  Ok [entry_of (camera_entry "Porch" "uuid-1" "id-1");
      entry_of (camera_entry "Garage" "uuid-3" "id-3")].
Proof.
  exact (f_equal fst
           (index_lists_live_cameras
              (N := answering Py3 200 "OK" []
                      (Plain (PyDict [("data", PyList three_cameras)])))
              a_client
              (before Py3 200 "OK" [] (Plain (PyDict [("data", PyList three_cameras)])))
              _ (PyDict [("data", PyList three_cameras)]) three_cameras
              eq_refl eq_refl three_cameras_listable)).
Defined.

(** The same index, asked for Porch and for a name it does not hold. *)
Lemma name_to_uuid_finds_last_named_witness :
  fst (name_to_uuid (N := answering Py3 200 "OK" []
                            (Plain (PyDict [("data", PyList three_cameras)])))
         (client_at "3.1.0") "Porch"
         (before Py3 200 "OK" [] (Plain (PyDict [("data", PyList three_cameras)])))) =
  Ok (PyStr "uuid-1").
Proof.
  exact (f_equal fst
           (name_to_uuid_finds_last_named
              (N := answering Py3 200 "OK" []
                      (Plain (PyDict [("data", PyList three_cameras)])))
              (client_at "3.1.0") "Porch"
              (before Py3 200 "OK" [] (Plain (PyDict [("data", PyList three_cameras)])))
              _ (PyDict [("data", PyList three_cameras)]) three_cameras (3, 1, 0)
              eq_refl eq_refl three_cameras_listable three_cameras_named eq_refl)).
Defined.

(** Brightness 80 on the fixture camera. *)
Lemma brightness_round_trip_witness :
  fst ((_ <- set_brightness (N := storing_nvr (plain_wire Py3)) a_client "cam1" (PyInt 80) ;;
        get_brightness a_client "cam1") (camera_world (plain_wire Py3) a_camera)) =
  Ok (PyInt 80).
Proof.
  exact (brightness_round_trip (W := plain_wire Py3) (fun v => eq_refl)
           a_client "cam1" (PyInt 80) _ _ (camera_world (plain_wire Py3) a_camera)
           eq_refl eq_refl).
Defined.

(** Contrast on the fixture camera, which has no top-level [contrast]. *)
Lemma level_setters_write_then_miss_witness :
  fst (set_contrast (N := storing_nvr (plain_wire Py3)) a_client "cam1" (PyInt 40)
         (camera_world (plain_wire Py3) a_camera)) = Raise KeyError.
Proof.
  exact (proj1 (level_setters_write_then_miss (W := plain_wire Py3) (fun v => eq_refl)
                  LContrast a_client "cam1" (PyInt 40) _ _
                  (camera_world (plain_wire Py3) a_camera) eq_refl eq_refl) eq_refl).
Defined.

(** Microphone volume and padding on the fixture camera. *)
Lemma plain_setters_store_and_return_false_witness :
  fst (set_cameramicvolume (N := storing_nvr (plain_wire Py3)) a_client "cam1" (PyInt 5)
         (camera_world (plain_wire Py3) a_camera)) = Ok (PyBool false) /\
  fst (set_recordprepaddingtime (N := storing_nvr (plain_wire Py3)) a_client "cam1"
         (PyInt 5) (camera_world (plain_wire Py3) a_camera)) = Ok (PyBool false).
Proof.
  destruct (plain_setters_store_and_return_false (W := plain_wire Py3)
              (fun v => eq_refl) a_client "cam1" (PyInt 5) _ _
              (camera_world (plain_wire Py3) a_camera) eq_refl eq_refl eq_refl)
    as [[Hm _] [[Hp _] _]].
  split; [exact Hm | exact Hp].
Defined.

(** A camera with two zones. *)
Lemma prune_zones_keeps_first_witness :
  fst ((_ <- prune_zones (N := storing_nvr (plain_wire Py3)) a_client "cam1" ;;
        list_zones a_client "cam1") (camera_world (plain_wire Py3) a_zoned_camera)) =
  Ok (PyList [PyDict [("name", PyStr "Door")]]).
Proof.
  exact (proj1 (prune_zones_keeps_first (W := plain_wire Py3) (fun v => eq_refl)
                  a_client "cam1" _ _ _ (camera_world (plain_wire Py3) a_zoned_camera)
                  eq_refl eq_refl)).
Defined.

(** A camera without zones. *)
Lemma prune_zones_needs_a_zone_witness :
  fst (prune_zones (N := storing_nvr (plain_wire Py3)) a_client "cam1"
         (camera_world (plain_wire Py3) a_zoneless_camera)) = Raise IndexError.
Proof.
  exact (proj1 (prune_zones_needs_a_zone (W := plain_wire Py3) (fun v => eq_refl)
                  a_client "cam1" _ (camera_world (plain_wire Py3) a_zoneless_camera)
                  eq_refl eq_refl)).
Defined.

(** The IR LEDs switched off on the fixture camera. *)
Lemma enum_setter_changes_only_its_fields_witness :
  exists cam' grp',
    nvr (snd (call_setter (N := storing_nvr (plain_wire Py3)) SIrLedMode a_client
                "cam1" "OFF" (camera_world (plain_wire Py3) a_camera))) = PyDict cam' /\
    dict_get "ispSettings" cam' = Some (PyDict grp') /\
    dict_get "brightness" grp' = Some (PyInt 50) /\
    dict_get "irLedLevel" grp' = Some (PyInt 0).
Proof.
  destruct (enum_setter_changes_only_its_fields (W := plain_wire Py3)
              (fun v => eq_refl) SIrLedMode a_client "cam1" "OFF" "ispSettings" _ _
              (camera_world (plain_wire Py3) a_camera) eq_refl
              (or_introl eq_refl) I eq_refl eq_refl)
    as [cam' [grp' [Hn [Hg [_ [Hframe Hset]]]]]].
  exists cam', grp'. split; [exact Hn|]. split; [exact Hg|]. split.
  - rewrite (Hframe "brightness"); [reflexivity|].
    vm_compute. intuition discriminate.
  - apply Hset. vm_compute. auto.
Defined.

Lemma enum_setter_idempotent_witness :
  nvr (snd ((_ <- call_setter (N := storing_nvr (plain_wire Py3)) SIrLedMode a_client
                    "cam1" "off" ;;
             call_setter SIrLedMode a_client "cam1" "off")
            (camera_world (plain_wire Py3) a_camera))) =
  nvr (snd (call_setter (N := storing_nvr (plain_wire Py3)) SIrLedMode a_client
              "cam1" "off" (camera_world (plain_wire Py3) a_camera))).
Proof.
  exact (enum_setter_idempotent (W := plain_wire Py3) (fun v => eq_refl)
           SIrLedMode a_client "cam1" "off" _ _
           (camera_world (plain_wire Py3) a_camera) eq_refl
           (or_introl eq_refl) I eq_refl).
Defined.

(** Answers 403 and 404, under either interpreter. *)
Lemma uvc_request_safe_refuses_401_403_witness :
  fst (_uvc_request_safe (N := answering Py2 403 "Forbidden" [] Garbage) a_client
         "/api/2.0/camera" "GET" None "application/json"
         (before Py2 403 "Forbidden" [] Garbage)) =
  Raise (NotAuthorized "NVR reported authorization failure").
Proof.
  exact (uvc_request_safe_refuses_401_403
           (N := answering Py2 403 "Forbidden" [] Garbage) a_client
           "/api/2.0/camera" "GET" None "application/json"
           (before Py2 403 "Forbidden" [] Garbage) tt
           (answer Py2 403 "Forbidden" [] Garbage) eq_refl (or_intror eq_refl)).
Defined.

Lemma uvc_request_safe_refuses_non_2xx_witness :
  fst (_uvc_request_safe (N := answering Py3 404 "Not Found" [] Garbage) a_client
         "/api/2.0/camera" "GET" None "application/json"
         (before Py3 404 "Not Found" [] Garbage)) =
  Raise (NvrError "Request failed: 404").
Proof.
  refine (uvc_request_safe_refuses_non_2xx
            (N := answering Py3 404 "Not Found" [] Garbage) a_client
            "/api/2.0/camera" "GET" None "application/json"
            (before Py3 404 "Not Found" [] Garbage) tt
            (answer Py3 404 "Not Found" [] Garbage) eq_refl (or_intror eq_refl) _ _);
    vm_compute; discriminate.
Defined.

(** A 204 under Python 2. *)
Lemma uvc_request_safe_py2_accepts_2xx_witness :
  fst (_uvc_request_safe (N := answering Py2 204 "No Content" [] (Plain a_bootstrap))
         a_client "/api/2.0/bootstrap" "GET" None "application/json"
         (before Py2 204 "No Content" [] (Plain a_bootstrap))) = Ok a_bootstrap.
Proof.
  refine (proj1 (uvc_request_safe_py2_accepts_2xx
                   (N := answering Py2 204 "No Content" [] (Plain a_bootstrap))
                   a_client "/api/2.0/bootstrap" "GET" None "application/json"
                   (before Py2 204 "No Content" [] (Plain a_bootstrap)) tt
                   (answer Py2 204 "No Content" [] (Plain a_bootstrap))
                   eq_refl _ eq_refl)).
  vm_compute. split; discriminate.
Defined.

(** The on/off pairs on the zoned camera. *)
Lemma on_off_round_trip_witness :
  fst ((_ <- set_showosdlogomode (N := storing_nvr (plain_wire Py3)) a_client "cam1" "off" ;;
        get_showosdlogomode a_client "cam1")
         (camera_world (plain_wire Py3) a_zoned_camera)) = Ok "off".
Proof.
  exact (proj1 (proj2 (proj2 (on_off_round_trip (W := plain_wire Py3)
                                (fun v => eq_refl) a_client "cam1" "off" _ _ _
                                (camera_world (plain_wire Py3) a_zoned_camera)
                                eq_refl eq_refl eq_refl (or_introl eq_refl))))).
Defined.

Lemma ae_modes_read_back_witness :
  fst ((_ <- set_aemode (N := storing_nvr (plain_wire Py3)) a_client "cam1"
               "antiflicker60hz" ;;
        get_aemode a_client "cam1")
         (camera_world (plain_wire Py3) a_zoned_camera)) =
  Ok "anti-flicker for 60hz light".
Proof.
  exact (proj1 (proj2 (proj2 (ae_modes_read_back (W := plain_wire Py3)
                                (fun v => eq_refl) a_client "cam1" _ _
                                (camera_world (plain_wire Py3) a_zoned_camera)
                                eq_refl eq_refl)))).
Defined.


(** A 200 answer that says gzip and carries something else. *)
Lemma unusable_body_raises_codec_error_witness :
  fst (_uvc_request (N := answering Py3 200 "OK" [("Content-Encoding", "gzip")] Garbage)
         a_client "/api/2.0/camera" "GET" None
         (before Py3 200 "OK" [("Content-Encoding", "gzip")] Garbage)) = Raise ZlibError.
Proof.
  exact (proj1 (unusable_body_raises_codec_error
                  (N := answering Py3 200 "OK" [("Content-Encoding", "gzip")] Garbage)
                  a_client "/api/2.0/camera" "GET" None
                  (before Py3 200 "OK" [("Content-Encoding", "gzip")] Garbage) tt
                  (answer Py3 200 "OK" [("Content-Encoding", "gzip")] Garbage)
                  eq_refl eq_refl) eq_refl eq_refl).
Defined.

(** The channel "High". *)
Lemma recordmode_unknown_channel_witness :
  fst (set_recordmode (N := storing_nvr (plain_wire Py3)) a_client "cam1" "full"
         (Some "High") (camera_world (plain_wire Py3) a_camera)) = Raise ValueError.
Proof.
  refine (proj1 (recordmode_unknown_channel (W := plain_wire Py3) (fun v => eq_refl)
                   a_client "cam1" "full" "High" _ _
                   (camera_world (plain_wire Py3) a_camera) eq_refl eq_refl _ _ _)).
  - vm_compute. auto.
  - discriminate.
  - vm_compute. intuition discriminate.
Defined.


(** [--irsensitivity high] without a camera. *)
Lemma branch_without_uuid_witness :
  run_branch (W := plain_wire Py3) (N := storing_nvr _) (BIrSensitivity "high")
    a_client None (camera_world (plain_wire Py3) a_camera) =
  (Ok (PyInt 1),
   {| nvr := nvr (camera_world (plain_wire Py3) a_camera);
      trace := trace (camera_world (plain_wire Py3) a_camera) ++
               [Printed "Name or UUID is required"] |}).
Proof.
  exact (branch_without_uuid (W := plain_wire Py3) (N := storing_nvr _)
           (BIrSensitivity "high") a_client None
           (camera_world (plain_wire Py3) a_camera) (or_introl eq_refl)).
Defined.

(** The IR sensitivity of the stored camera. *)
Lemma enum_getter_result_in_vocabulary_witness :
  exists s,
    fst (call_getter (W := plain_wire Py3) (N := storing_nvr _) GIrSensitivity
           a_client "cam1" (camera_world (plain_wire Py3) a_camera)) = Ok s /\
    In s (getter_vocabulary GIrSensitivity).
Proof.
  eexists. split; [vm_compute; reflexivity|].
  refine (enum_getter_result_in_vocabulary (W := plain_wire Py3) (N := storing_nvr _)
            GIrSensitivity a_client "cam1"
            (camera_world (plain_wire Py3) a_camera)
            (snd (call_getter (W := plain_wire Py3) (N := storing_nvr _) GIrSensitivity
                    a_client "cam1" (camera_world (plain_wire Py3) a_camera)))
            _ _).
  vm_compute. reflexivity.
Defined.

(** [--get-irsensitivity] on the stored camera. *)
Lemma get_branch_returns_is_none_witness :
  exists r,
    fst (main_get_irsensitivity (W := plain_wire Py3) (N := storing_nvr _)
           a_client (Some "cam1") (camera_world (plain_wire Py3) a_camera)) = Ok r /\
    r = PyBool false.
Proof.
  eexists. split; [vm_compute; reflexivity|].
  refine (proj1 (proj2 (proj2
            (get_branch_returns_is_none (W := plain_wire Py3) (N := storing_nvr _)
               a_client "cam1" (camera_world (plain_wire Py3) a_camera)
               (snd (main_get_irsensitivity (W := plain_wire Py3) (N := storing_nvr _)
                       a_client (Some "cam1")
                       (camera_world (plain_wire Py3) a_camera)))
               _ _))) _).
  - discriminate.
  - vm_compute. reflexivity.
Defined.
